(** * The Curator's AI-relevance scorer and universe store tools

    A shallow embedding of [app/agents/curator/tools.py]: the keyword
    taxonomy, the two-stage scan ([_keyword_scoring], [_llm_validation],
    [_scan_stock_for_ai]), the categoriser and the two universe-store tools
    ([_update_trading_universe], [_get_trading_universe]).

    Conventions of the embedding.
    - Python [str] is [string]; [.lower()] and [.upper()] act on the ASCII
      letters, [.strip()] on the ASCII white space.
    - A parsed JSON document is a [json] value; a JSON number is an
      integer or a float, and a finite float is the rational number it
      denotes.
    - The outside world of one scan (the environment variable and the two
      Finnhub replies) is a [world]; a reply of [None] stands for a request
      that raised (network error, time-out, a body that is not JSON).
    - Code that can raise runs in the monad [M]: an outcome together with
      the trace of the observable calls made so far.
    - [json.dumps] is not modelled: a tool returns the value it would
      serialise.

    Beside the Curator's tools the development covers the market clock of
    [app/agents/tools.py], the positions summary of
    [app/dashboard/utils.py] and the deduplication and batching of
    [scripts/load_russell3000.py]. *)

From Stdlib Require Import ZArith QArith Lia String Ascii List Sorting.Sorted.
From stdpp Require Import base strings gmap list.
Import ListNotations.

Local Open Scope string_scope.
Local Open Scope list_scope.
Local Open Scope Z_scope.

(** ** Python strings *)

Module Py.

Fixpoint str_map (f : ascii -> ascii) (s : string) : string :=
  match s with
  | EmptyString => EmptyString
  | String c r => String (f c) (str_map f r)
  end.

Definition lower_char (c : ascii) : ascii :=
  let n := N_of_ascii c in
  if ((65 <=? n) && (n <=? 90))%N then ascii_of_N (n + 32) else c.

Definition upper_char (c : ascii) : ascii :=
  let n := N_of_ascii c in
  if ((97 <=? n) && (n <=? 122))%N then ascii_of_N (n - 32) else c.

(** [s.lower()] and [s.upper()]. *)
Definition lower (s : string) : string := str_map lower_char s.
Definition upper (s : string) : string := str_map upper_char s.

(** The characters [str.strip()] removes: tab, line feed, vertical tab,
    form feed, carriage return, the four separators 28-31 and the space. *)
Definition is_space (c : ascii) : bool :=
  let n := N_of_ascii c in
  (((9 <=? n) && (n <=? 13)) || ((28 <=? n) && (n <=? 32)))%N.

Fixpoint lstrip (s : string) : string :=
  match s with
  | EmptyString => EmptyString
  | String c r => if is_space c then lstrip r else s
  end.

Fixpoint rstrip (s : string) : string :=
  match s with
  | EmptyString => EmptyString
  | String c r =>
      match rstrip r with
      | EmptyString => if is_space c then EmptyString else String c EmptyString
      | r' => String c r'
      end
  end.

Definition strip (s : string) : string := rstrip (lstrip s).

(** [k in text] on strings: [k] occurs as a contiguous substring. *)
Fixpoint contains (k text : string) : bool :=
  Stdlib.Strings.String.prefix k text
  || match text with
     | EmptyString => false
     | String _ r => contains k r
     end.

(** [sep.join(l)]. *)
Definition join (sep : string) (l : list string) : string :=
  Stdlib.Strings.String.concat sep l.

End Py.

(** ** JSON values, as [json.loads] and [response.json()] produce them *)

(** A Python [float]: a finite value, or one of the three values
    [json.loads] reads from [Infinity], [-Infinity] and [NaN] (and from a
    literal too large for a double). *)
Inductive pyfloat : Type :=
| Finite (q : Q)
| PosInf
| NegInf
| NaN.

(** [bool(x)], [int(x)] and [x > 0] on a float; [int] raises on the three
    values that are not finite. *)
Definition float_truthy (x : pyfloat) : bool :=
  match x with
  | Finite q => negb (Qnum q =? 0)
  | _ => true
  end.

Definition float_int (x : pyfloat) : option Z :=
  match x with
  | Finite q => Some (Z.quot (Qnum q) (Z.pos (Qden q)))
  | _ => None
  end.

Definition float_gt_zero (x : pyfloat) : bool :=
  match x with
  | Finite q => 0 <? Qnum q
  | PosInf => true
  | NegInf | NaN => false
  end.

#[warnings="-register-all"]
Inductive json : Type :=
| JNull
| JBool (b : bool)
| JNum (n : Z)
| JStr (s : string)
| JArr (l : list json)
| JObj (kv : list (string * json))
| JFloat (x : pyfloat).

(** Python truthiness ([if x:], [not x], [bool(x)]). *)
Definition truthy (v : json) : bool :=
  match v with
  | JNull => false
  | JBool b => b
  | JNum n => negb (n =? 0)
  | JStr s => negb (s =? "")%string
  | JArr l => match l with [] => false | _ => true end
  | JObj kv => match kv with [] => false | _ => true end
  | JFloat x => float_truthy x
  end.

(** [k in d] and [d.get(k, default)] on a dict. *)
Fixpoint dict_find (kv : list (string * json)) (k : string) : option json :=
  match kv with
  | [] => None
  | (k', v) :: r => if (k' =? k)%string then Some v else dict_find r k
  end.

Definition dict_has (kv : list (string * json)) (k : string) : bool :=
  match dict_find kv k with Some _ => true | None => false end.

Definition dict_get (kv : list (string * json)) (k : string) (default : json) : json :=
  match dict_find kv k with Some v => v | None => default end.

(** ** The keyword taxonomy [AI_KEYWORDS] *)

Definition tier1_keywords : list string :=
  [ "artificial intelligence"; "machine learning"; "deep learning";
    "neural network"; "large language model"; "llm"; "generative ai";
    "gpt"; "transformer model"; "ai chip"; "gpu inference"; "nvidia gpu";
    "neural processor"; "tpu"; "ai accelerator" ].

Definition tier1_categories : list (string * list string) :=
  [ ("ai_chip", ["gpu"; "ai chip"; "neural processor"; "tpu"; "ai accelerator"; "nvidia"; "cuda"]);
    ("ai_software", ["llm"; "generative ai"; "ai platform"; "ai agent"; "chatgpt"; "gpt"]);
    ("ai_cloud", ["ai inference"; "model training"; "ai infrastructure"; "gpu cloud"]) ].

Definition tier2_keywords : list string :=
  [ "openai partnership"; "anthropic"; "ai partnership";
    "data center"; "cloud ai"; "ai-powered"; "ai integration";
    "automation"; "predictive analytics"; "computer vision";
    "natural language processing"; "nlp"; "ai model" ].

Definition tier3_keywords : list string :=
  [ "algorithm"; "data science"; "analytics platform";
    "intelligent"; "smart technology"; "automated" ].

(** ** Outcomes, traces and the monad of the tools *)

Inductive source := Profile | News.

Inductive event :=
| Getenv                      (* os.getenv('FINNHUB_API_KEY') *)
| HttpGet (src : source)      (* requests.get(...) *)
| Warning (src : source)      (* the print of an except clause *)
| LlmValidation (sc : Z).     (* a call of the validator with this keyword score *)

Inductive outcome (A : Type) : Type :=
| Ret (a : A)
| Raise (msg : string).
Arguments Ret {A} a.
Arguments Raise {A} msg.

Definition M (A : Type) : Type := list event -> outcome A * list event.

Definition ret {A} (a : A) : M A := fun tr => (Ret a, tr).
Definition raise {A} (msg : string) : M A := fun tr => (Raise msg, tr).
Definition emit (e : event) : M unit := fun tr => (Ret tt, tr ++ [e]).
Definition lift {A} (o : outcome A) : M A := fun tr => (o, tr).

Definition bind {A B} (m : M A) (k : A -> M B) : M B :=
  fun tr =>
    match m tr with
    | (Ret a, tr') => k a tr'
    | (Raise msg, tr') => (Raise msg, tr')
    end.

(** [try: m except Exception as e: h(str(e))]. *)
Definition try_except {A} (m : M A) (h : string -> M A) : M A :=
  fun tr =>
    match m tr with
    | (Ret a, tr') => (Ret a, tr')
    | (Raise msg, tr') => h msg tr'
    end.

(** stdpp's monad notation: [x ← m; k] and [m;; k]. *)
#[global] Instance M_ret : MRet M := @ret.
#[global] Instance M_bind : MBind M := fun A B k m => bind m k.

(** Run a tool from the empty trace. *)
Definition run {A} (m : M A) : outcome A * list event := m [].

(** How often the validator was called in a trace. *)
Definition is_validation (e : event) : bool :=
  match e with LlmValidation _ => true | _ => false end.

Definition validator_calls (tr : list event) : nat :=
  length (List.filter is_validation tr).

(** ** Stage 1: keyword scoring *)

(** The world one scan runs in. *)
Record world := {
  finnhub_api_key : option string;   (* os.getenv('FINNHUB_API_KEY') *)
  profile_reply : option json;       (* requests.get(profile_url).json() *)
  news_reply : option json           (* requests.get(news_url).json() *)
}.

(** The local variables [_keyword_scoring] accumulates into. *)
Record scoring := {
  score : Z;
  evidence : list string;
  company_name : json;
  sector : json
}.

Definition add_hit (points : Z) (note : option string) (st : scoring) : scoring :=
  {| score := score st + points;
     evidence := match note with
                 | Some n => evidence st ++ [n]
                 | None => evidence st
                 end;
     company_name := company_name st;
     sector := sector st |}.

Definition description_note (keyword : string) : string :=
  "Description: '" +:+ keyword +:+ "'".

Definition news_note (keyword : string) : string :=
  "News: '" +:+ keyword +:+ "' in headline".

(** [for keyword in keywords: if keyword in description: score += points;
    evidence.append(...)]: every keyword is tried. *)
Fixpoint score_each (keywords : list string) (points : Z) (description : string)
    (st : scoring) : scoring :=
  match keywords with
  | [] => st
  | keyword :: rest =>
      score_each rest points description
        (if Py.contains keyword description
         then add_hit points (Some (description_note keyword)) st
         else st)
  end.

Definition score_description (description : string) (st : scoring) : scoring :=
  score_each tier2_keywords 5 description
    (score_each tier1_keywords 10 description st).

(** [for keyword in keywords: if keyword in text: ...; break]: the first
    keyword of the list that occurs in the text, if any. *)
Fixpoint first_hit (keywords : list string) (text : string) : option string :=
  match keywords with
  | [] => None
  | keyword :: rest =>
      if Py.contains keyword text then Some keyword else first_hit rest text
  end.

(** The body of the article loop, once [text] is built. *)
Definition score_article (text : string) (st : scoring) : scoring :=
  let st1 :=
    match first_hit tier1_keywords text with
    | Some keyword => add_hit 10 (Some (news_note keyword)) st
    | None => st
    end in
  match first_hit tier2_keywords text with
  | Some _ => add_hit 5 None st1
  | None => st1
  end.

(** [f"{headline} {summary}"] of one article; [None] when the article is
    not a dict or a field is not a string ([.get] or [.lower()] raises). *)
Definition article_text (article : json) : option string :=
  match article with
  | JObj kv =>
      match dict_get kv "headline" (JStr ""), dict_get kv "summary" (JStr "") with
      | JStr headline, JStr summary =>
          Some (Py.lower headline +:+ " " +:+ Py.lower summary)
      | _, _ => None
      end
  | _ => None
  end.

(** How a [try] block was left, with the locals at that point. *)
Inductive tried :=
| Completed (st : scoring)
| Excepted (st : scoring).

Definition locals_of (t : tried) : scoring :=
  match t with Completed st | Excepted st => st end.

Definition excepted (t : tried) : bool :=
  match t with Completed _ => false | Excepted _ => true end.

Fixpoint scan_articles (articles : list json) (st : scoring) : tried :=
  match articles with
  | [] => Completed st
  | article :: rest =>
      match article_text article with
      | Some text => scan_articles rest (score_article text st)
      | None => Excepted st
      end
  end.

(** The profile [try] block after the request. *)
Definition profile_block (ticker : string) (reply : option json) (st : scoring) : tried :=
  match reply with
  | None => Excepted st
  | Some profile_data =>
      if truthy profile_data then
        match profile_data with
        | JObj kv =>
            let st' :=
              {| score := score st;
                 evidence := evidence st;
                 company_name := dict_get kv "name" (JStr ticker);
                 sector := dict_get kv "finnhubIndustry" JNull |} in
            match dict_get kv "description" (JStr "") with
            | JStr description => Completed (score_description (Py.lower description) st')
            | _ => Excepted st'
            end
        | _ => Excepted st
        end
      else Completed st
  end.

(** The news [try] block after the request: [news_data[:10]] is a list for
    a list, a string of characters for a string (whose items have no
    [.get]) and a [TypeError] or [KeyError] for anything else. *)
Definition news_block (reply : option json) (st : scoring) : tried :=
  match reply with
  | None => Excepted st
  | Some (JArr news_data) => scan_articles (take 10 news_data) st
  | Some (JStr s) => if (s =? "")%string then Completed st else Excepted st
  | Some _ => Excepted st
  end.

(** The dict a scan serialises when the [try] body returns. *)
Record scan_result := {
  r_ticker : string;
  r_company_name : json;
  r_sector : json;
  r_has_ai : bool;
  r_score : Z;
  r_category : string;
  r_evidence : string
}.

(** [_categorize_stock]: the first category, in declaration order, one of
    whose keywords occurs in the joined, lower-cased evidence. *)
Fixpoint first_category (table : list (string * list string)) (evidence_text : string)
    : option string :=
  match table with
  | [] => None
  | (category, keywords) :: rest =>
      match first_hit keywords evidence_text with
      | Some _ => Some category
      | None => first_category rest evidence_text
      end
  end.

Definition _categorize_stock (evidence : list string) : string :=
  let evidence_text := Py.lower (Py.join " " evidence) in
  match first_category tier1_categories evidence_text with
  | Some category => category
  | None => "ai_beneficiary"
  end.

(** [category or 'ai_beneficiary']. *)
Definition category_or_default (category : option string) : string :=
  match category with
  | Some c => if (c =? "")%string then "ai_beneficiary" else c
  | None => "ai_beneficiary"
  end.

(** From [score = min(score, 100)] to the returned dict. *)
Definition keyword_result (ticker : string) (st : scoring) : scan_result :=
  let score := Z.min (score st) 100 in
  let category := if 0 <? score then Some (_categorize_stock (evidence st)) else None in
  {| r_ticker := ticker;
     r_company_name := company_name st;
     r_sector := sector st;
     r_has_ai := 40 <=? score;
     r_score := score;
     r_category := category_or_default category;
     r_evidence := Py.join " | " (take 5 (evidence st)) |}.

Definition key_missing (key : option string) : bool :=
  match key with
  | None => true
  | Some k => (k =? "")%string
  end.

Definition getenv (w : world) : M (option string) :=
  emit Getenv;; ret (finnhub_api_key w).

(** One guarded request: the request, the block, the warning if it raised. *)
Definition guarded (src : source) (block : tried) : M scoring :=
  emit (HttpGet src);;
  (if excepted block then emit (Warning src) else ret tt);;
  ret (locals_of block).

Definition _keyword_scoring (w : world) (ticker : string) : M scan_result :=
  key ← getenv w;
  if key_missing key then raise "FINNHUB_API_KEY not set" else
  let st0 := {| score := 0; evidence := [];
                company_name := JStr ticker; sector := JNull |} in
  st1 ← guarded Profile (profile_block ticker (profile_reply w) st0);
  st2 ← guarded News (news_block (news_reply w) st1);
  ret (keyword_result ticker st2).

(** ** Stage 2: validation of borderline scores *)

Record llm_result := {
  adjusted_score : Z;
  category : string;
  reasoning : string
}.

(** [_llm_validation] builds a prompt it never sends and returns the
    stage-1 values. *)
Definition _llm_validation (ticker : string) (stage1_result : scan_result) : llm_result :=
  {| adjusted_score := r_score stage1_result;
     category := r_category stage1_result;
     reasoning := "LLM validation not implemented yet - using keyword scoring" |}.

(** A validator in general: it answers or it raises. *)
Definition validator := string -> scan_result -> outcome llm_result.

Definition call_validator (v : validator) (ticker : string) (result : scan_result)
    : M llm_result :=
  emit (LlmValidation (r_score result));; lift (v ticker result).

(** What [_scan_stock_for_ai] serialises: the result dict, or the dict of
    its except clause [{ticker, error, has_ai: False, score: 0}]. *)
Inductive scan_output :=
| ScanResult (r : scan_result)
| ScanError (ticker error : string).

Definition out_score (o : scan_output) : Z :=
  match o with ScanResult r => r_score r | ScanError _ _ => 0 end.

Definition out_has_ai (o : scan_output) : bool :=
  match o with ScanResult r => r_has_ai r | ScanError _ _ => false end.

(** The keys [category] and [evidence] are absent from the error dict. *)
Definition out_category (o : scan_output) : option string :=
  match o with ScanResult r => Some (r_category r) | ScanError _ _ => None end.

Definition out_evidence (o : scan_output) : option string :=
  match o with ScanResult r => Some (r_evidence r) | ScanError _ _ => None end.

(** The [try] body of [_scan_stock_for_ai]. *)
Definition scan_body (v : validator) (w : world) (ticker : string) : M scan_result :=
  result ← _keyword_scoring w ticker;
  if (30 <=? r_score result) && (r_score result <=? 70) then
    llm_result ← call_validator v ticker result;
    ret {| r_ticker := r_ticker result;
           r_company_name := r_company_name result;
           r_sector := r_sector result;
           r_has_ai := r_has_ai result;
           r_score := adjusted_score llm_result;
           r_category := category llm_result;
           r_evidence := r_evidence result +:+ " | LLM: " +:+ reasoning llm_result |}
  else ret result.

Definition scan_with (v : validator) (w : world) (ticker : string) : M scan_output :=
  let ticker := Py.strip (Py.upper ticker) in
  try_except
    (result ← scan_body v w ticker; ret (ScanResult result))
    (fun e => ret (ScanError ticker e)).

(** The validator the tool is wired to. *)
Definition llm_validator : validator :=
  fun ticker stage1_result => Ret (_llm_validation ticker stage1_result).

Definition _scan_stock_for_ai (w : world) (ticker : string) : M scan_output :=
  scan_with llm_validator w ticker.

(** ** The universe store *)

(** A row of [trading_universe], and the payload of an upsert: column name
    to value. *)
Abbreviation row := (gmap string json).

(** The Supabase client's view of the table: rows in insertion order, and
    whether a request reaches the service. *)
Record store := {
  reachable : bool;
  trading_universe : list row
}.

Definition row_ticker (r : row) : option string :=
  match r !! "ticker" with
  | Some (JStr t) => Some t
  | _ => None
  end.

Definition int_column (col : string) (r : row) : option Z :=
  match r !! col with
  | Some (JNum n) => Some n
  | _ => None
  end.

(** [table.upsert(payload)] on the key [ticker]: the row of that ticker
    takes the payload's columns and keeps its other columns; without such
    a row the payload is appended. *)
Fixpoint table_upsert (payload : row) (t : list row) : list row :=
  match t with
  | [] => [payload]
  | r :: rest =>
      if decide (row_ticker r = row_ticker payload)
      then (payload ∪ r) :: rest
      else r :: table_upsert payload rest
  end.

Fixpoint table_find (ticker : string) (t : list row) : option row :=
  match t with
  | [] => None
  | r :: rest =>
      if decide (row_ticker r = Some ticker) then Some r else table_find ticker rest
  end.

Section Upsert.

(** [int(s)] on a [str]: the integer it spells, or [None] for ValueError. *)
Variable int_of_str : string -> option Z.

(** The clock: the text of the n-th [datetime.utcnow().isoformat()] of the
    call. *)
Variable clock : nat -> string.

(** [int(v)]; [None] when it raises. *)
Definition py_int (v : json) : option Z :=
  match v with
  | JNum n => Some n
  | JBool b => Some (if b then 1 else 0)
  | JStr s => int_of_str s
  | JFloat x => float_int x
  | _ => None
  end.

(** [v > 0]; [None] when the comparison raises TypeError. *)
Definition py_gt_zero (v : json) : option bool :=
  match v with
  | JNum n => Some (0 <? n)
  | JBool b => Some b
  | JFloat x => Some (float_gt_zero x)
  | _ => None
  end.

(** [if k in data: upsert_data[k] = data[k]]. *)
Definition copy_field (data : list (string * json)) (k : string) (p : row) : row :=
  match dict_find data k with
  | Some v => <[k := v]> p
  | None => p
  end.

(** The dict [upsert_data], or [None] when building it raises. A [data]
    that is not a dict raises at the first subscript or at [data.get]. *)
Definition upsert_data (ticker : string) (data : json) : option row :=
  match data with
  | JObj kv =>
      let p0 : row := <["last_scanned" := JStr (clock 0%nat)]> {["ticker" := JStr ticker]} in
      let p1 := copy_field kv "company_name" p0 in
      let p2 := copy_field kv "sector" p1 in
      let p3 := copy_field kv "category" p2 in
      p4 ← match dict_find kv "score" with
           | Some v => n ← py_int v; Some (<["score" := JNum n]> p3)
           | None => Some p3
           end;
      let '(p5, readings) :=
        match dict_find kv "is_active" with
        | Some v =>
            let p := <["is_active" := JBool (truthy v)]> p4 in
            if truthy v then (p, 1%nat)
            else (<["deactivated_at" := JStr (clock 1%nat)]> p, 2%nat)
        | None => (p4, 1%nat)
        end in
      let p6 := copy_field kv "notes" p5 in
      mentioned ← py_gt_zero (dict_get kv "score" (JNum 0));
      Some (if mentioned : bool
            then <["last_mention" := JStr (clock readings)]> p6
            else p6)
  | _ => None
  end.

(** The three messages the tool returns, with the ticker they name; the
    text of the exception, which ends the third, is not modelled. *)
Inductive upsert_reply :=
| NotConnected                 (* "Error: Supabase not connected" *)
| Updated (ticker : string)    (* "Updated {ticker} in trading_universe ..." *)
| UpdateError (ticker : string).
                               (* "Error updating trading_universe for {ticker}: ..." *)

(** [data_json] is given parsed: [None] when [json.loads] raises, which
    happens before the ticker is normalised, so that the message names the
    ticker as it was passed. *)
Definition _update_trading_universe (supabase : option store) (ticker : string)
    (data_json : option json) : upsert_reply * option store :=
  match supabase with
  | None => (NotConnected, None)
  | Some db =>
      match data_json with
      | None => (UpdateError ticker, Some db)
      | Some data =>
          let ticker := Py.strip (Py.upper ticker) in
          match upsert_data ticker data with
          | Some payload =>
              if reachable db
              then (Updated ticker,
                    Some {| reachable := true;
                            trading_universe :=
                              table_upsert payload (trading_universe db) |})
              else (UpdateError ticker, Some db)
          | None => (UpdateError ticker, Some db)
          end
      end
  end.

End Upsert.

(** ** Querying the universe *)

(** The query builder, run eagerly on the rows selected so far; [None]
    when the service rejects the request, which [execute()] raises. *)

(** [query.eq(col, v)] for a scalar [v]: the column holds that value. *)
Definition scalar_eqb (x v : json) : bool :=
  match x, v with
  | JBool a, JBool b => bool_decide (a = b)
  | JNum a, JNum b => a =? b
  | JStr a, JStr b => (a =? b)%string
  | _, _ => false
  end.

Definition is_scalar (v : json) : bool :=
  match v with JBool _ | JNum _ | JStr _ => true | _ => false end.

Definition column_eqb (col : string) (v : json) (r : row) : bool :=
  match r !! col with
  | Some x => scalar_eqb x v
  | None => false
  end.

Definition q_eq (col : string) (v : json) (q : list row) : option (list row) :=
  if is_scalar v then Some (List.filter (column_eqb col v) q) else None.

(** [query.gte(col, v)] and [query.lte(col, v)] on an integer column. *)
Definition column_geb (col : string) (bound : Z) (r : row) : bool :=
  match int_column col r with
  | Some n => bound <=? n
  | None => false
  end.

Definition column_leb (col : string) (bound : Z) (r : row) : bool :=
  match int_column col r with
  | Some n => n <=? bound
  | None => false
  end.

Definition q_gte (col : string) (v : json) (q : list row) : option (list row) :=
  match v with
  | JNum bound => Some (List.filter (column_geb col bound) q)
  | _ => None
  end.

Definition q_lte (col : string) (v : json) (q : list row) : option (list row) :=
  match v with
  | JNum bound => Some (List.filter (column_leb col bound) q)
  | _ => None
  end.

(** [query.order(col, desc=True)]: a stable sort, larger values first and
    rows without a value before all others. *)
Definition desc_leb (col : string) (a b : row) : bool :=
  match int_column col a, int_column col b with
  | Some x, Some y => x <=? y
  | Some _, None => true
  | None, Some _ => false
  | None, None => true
  end.

Fixpoint insert_desc (col : string) (r : row) (l : list row) : list row :=
  match l with
  | [] => [r]
  | x :: rest =>
      if desc_leb col x r then r :: x :: rest
      else x :: insert_desc col r rest
  end.

Definition q_order_desc (col : string) (q : list row) : list row :=
  foldr (insert_desc col) [] q.

(** [query.limit(v)]. *)
Definition q_limit (v : json) (q : list row) : option (list row) :=
  match v with
  | JNum n => if 0 <=? n then Some (take (Z.to_nat n) q) else None
  | _ => None
  end.

(** [if k in filters: query = op(filters[k])]. *)
Definition when_present (kv : list (string * json)) (k : string)
    (op : json -> list row -> option (list row)) (q : list row) : option (list row) :=
  match dict_find kv k with
  | Some v => op v q
  | None => Some q
  end.

Inductive query_reply :=
| Stocks (count : nat) (stocks : list row)
| QueryError.

(** [filters_json] is given parsed: [None] when [json.loads] raises. A
    value that is not a dict raises at a subscript or at [filters.get]. *)
Definition _get_trading_universe (supabase : option store) (filters_json : option json)
    : query_reply :=
  match supabase with
  | None => QueryError
  | Some db =>
      match filters_json with
      | Some (JObj filters) =>
          let data :=
            q ← when_present filters "is_active" (q_eq "is_active") (trading_universe db);
            q ← when_present filters "min_score" (q_gte "score") q;
            q ← when_present filters "max_score" (q_lte "score") q;
            q ← when_present filters "category" (q_eq "category") q;
            let q := q_order_desc "score" q in
            let limit := dict_get filters "limit" (JNum 100) in
            q ← q_limit limit q;
            if reachable db then Some q else None in
          match data with
          | Some data => Stocks (length data) data
          | None => QueryError
          end
      | _ => QueryError
      end
  end.

(** ** Vocabulary of the statements *)

(** What a tool returns when run from the empty trace, and its trace. *)
Definition returned {A} (m : M A) : outcome A := fst (run m).
Definition trace_of {A} (m : M A) : list event := snd (run m).

(** [ticker.upper().strip()]. *)
Definition normalize (ticker : string) : string := Py.strip (Py.upper ticker).

(** The locals of [_keyword_scoring] when it reaches [min(score, 100)]. *)
Definition initial_locals (ticker : string) : scoring :=
  {| score := 0; evidence := []; company_name := JStr ticker; sector := JNull |}.

Definition keyword_locals (w : world) (ticker : string) : scoring :=
  locals_of (news_block (news_reply w)
    (locals_of (profile_block ticker (profile_reply w) (initial_locals ticker)))).

(** The requests and warnings of one run of [_keyword_scoring]. *)
Definition fetch_trace (w : world) (ticker : string) : list event :=
  let p := profile_block ticker (profile_reply w) (initial_locals ticker) in
  let n := news_block (news_reply w) (locals_of p) in
  [Getenv; HttpGet Profile] ++ (if excepted p then [Warning Profile] else [])
  ++ [HttpGet News] ++ (if excepted n then [Warning News] else []).

(** The borderline band. *)
Definition in_band (s : Z) : bool := (30 <=? s) && (s <=? 70).

(** What the scan serialises once the validator was called on [r]. *)
Definition validated (v : validator) (t : string) (r : scan_result) : scan_output :=
  match v t r with
  | Ret llm_result =>
      ScanResult {| r_ticker := r_ticker r;
                    r_company_name := r_company_name r;
                    r_sector := r_sector r;
                    r_has_ai := r_has_ai r;
                    r_score := adjusted_score llm_result;
                    r_category := category llm_result;
                    r_evidence := r_evidence r +:+ " | LLM: " +:+ reasoning llm_result |}
  | Raise msg => ScanError t msg
  end.

(** Some keyword of the list occurs in the text. *)
Definition any_hit (keywords : list string) (text : string) : bool :=
  existsb (fun k => Py.contains k text) keywords.

(** The keywords of the list that occur in the text. *)
Definition hits (keywords : list string) (text : string) : list string :=
  List.filter (fun k => Py.contains k text) keywords.

Definition count_hits (keywords : list string) (text : string) : Z :=
  Z.of_nat (length (hits keywords text)).

(** Points of a description: every keyword found counts. *)
Definition description_points (description : string) : Z :=
  10 * count_hits tier1_keywords description + 5 * count_hits tier2_keywords description.

(** Points of an article: each tier counts once. *)
Definition article_points (text : string) : Z :=
  (if any_hit tier1_keywords text then 10 else 0)
  + (if any_hit tier2_keywords text then 5 else 0).

Definition sum_points (texts : list string) : Z :=
  foldr (fun t acc => article_points t + acc) 0 texts.

(** The description the two description loops run on, if they run. *)
Definition scanned_description (reply : option json) : option string :=
  match reply with
  | Some (JObj kv) =>
      if truthy (JObj kv) then
        match dict_get kv "description" (JStr "") with
        | JStr description => Some (Py.lower description)
        | _ => None
        end
      else None
  | _ => None
  end.

Definition profile_points (reply : option json) : Z :=
  match scanned_description reply with
  | Some d => description_points d
  | None => 0
  end.

(** The evidence the description loops append. *)
Definition profile_notes (reply : option json) : list string :=
  match scanned_description reply with
  | Some d => description_note <$> (hits tier1_keywords d ++ hits tier2_keywords d)
  | None => []
  end.

(** The texts the article loop scores: those of the first ten items, up
    to the first item that raises. *)
Fixpoint scanned_texts (articles : list json) : list string :=
  match articles with
  | [] => []
  | article :: rest =>
      match article_text article with
      | Some text => text :: scanned_texts rest
      | None => []
      end
  end.

Definition scanned_news (reply : option json) : list string :=
  match reply with
  | Some (JArr news_data) => scanned_texts (take 10 news_data)
  | _ => []
  end.

(** The evidence the article loop appends for these texts. *)
Definition news_notes (texts : list string) : list string :=
  omap (fun t => news_note <$> first_hit tier1_keywords t) texts.


(** Every scored keyword found in [a] is found in [b]. *)
Definition hits_included (a b : string) : bool :=
  forallb (fun k => implb (Py.contains k a) (Py.contains k b))
    (tier1_keywords ++ tier2_keywords).

Definition description_included (a b : option string) : bool :=
  match a, b with
  | None, _ => true
  | Some _, None => false
  | Some a, Some b => hits_included a b
  end.

(** The scored articles of [l] are matched, in their order, by scored
    articles of [l'] with at least their keywords; [l'] may hold further
    articles anywhere among them. *)
Fixpoint news_embedded (l l' : list string) : bool :=
  match l' with
  | [] => match l with [] => true | _ :: _ => false end
  | b :: rest' =>
      match l with
      | [] => true
      | a :: rest =>
          (hits_included a b && news_embedded rest rest') || news_embedded l rest'
      end
  end.

(** World [w'] has every match that world [w] has, among the texts the
    two runs score. *)
Definition matches_embedded (w w' : world) : bool :=
  description_included (scanned_description (profile_reply w))
                       (scanned_description (profile_reply w'))
  && news_embedded (scanned_news (news_reply w)) (scanned_news (news_reply w')).

(** The number of keyword matches a run finds: the keywords of the two
    scored tiers that occur in the description, and in each scored
    article. *)
Definition matches_in (text : string) : nat :=
  length (hits (tier1_keywords ++ tier2_keywords) text).

Definition match_count (w : world) : nat :=
  (match scanned_description (profile_reply w) with
   | Some d => matches_in d
   | None => 0
   end
   + list_sum (matches_in <$> scanned_news (news_reply w)))%nat.

(** The filters of a query, as the docstring types them. *)
Record filters := {
  f_is_active : option bool;
  f_min_score : option Z;
  f_max_score : option Z;
  f_category : option string;
  f_limit : option nat
}.

(** The dict [kv] spells the filters [f]. *)
Definition encodes (kv : list (string * json)) (f : filters) : Prop :=
  dict_find kv "is_active" = JBool <$> f_is_active f
  /\ dict_find kv "min_score" = JNum <$> f_min_score f
  /\ dict_find kv "max_score" = JNum <$> f_max_score f
  /\ dict_find kv "category" = JStr <$> f_category f
  /\ dict_find kv "limit" = (fun n => JNum (Z.of_nat n)) <$> f_limit f.

(** A row passes the filters: exact match on [is_active] and [category],
    inclusive range on [score]. *)
Definition passes (f : filters) (r : row) : bool :=
  match f_is_active f with
  | Some b => match r !! "is_active" with Some (JBool x) => Bool.eqb x b | _ => false end
  | None => true
  end
  && match f_min_score f with
     | Some m => match int_column "score" r with Some s => m <=? s | None => false end
     | None => true
     end
  && match f_max_score f with
     | Some m => match int_column "score" r with Some s => s <=? m | None => false end
     | None => true
     end
  && match f_category f with
     | Some c => match r !! "category" with Some (JStr x) => (x =? c)%string | _ => false end
     | None => true
     end.

Definition limit_of (f : filters) : nat := default 100%nat (f_limit f).

(** [a] may stand before [b] in a result ordered by score, descending. *)
Definition score_desc (a b : row) : Prop := desc_leb "score" b a = true.


(** The fields of the payload that are copied from the input. *)
Definition input_fields : list string :=
  ["company_name"; "sector"; "category"; "score"; "is_active"; "notes"].

(** The input carries a score that is greater than 0. *)
Definition score_positive (kv : list (string * json)) : bool :=
  match dict_find kv "score" with
  | Some (JNum n) => 0 <? n
  | Some (JBool b) => b
  | Some (JFloat x) => float_gt_zero x
  | _ => false
  end.


(** The input carries no score, or one that [int()] converts and that
    compares with 0: an integer, a boolean or a finite float. *)
Definition score_convertible (kv : list (string * json)) : bool :=
  match dict_find kv "score" with
  | None | Some (JNum _) | Some (JBool _) | Some (JFloat (Finite _)) => true
  | _ => false
  end.

(** The input sets [is_active] to a false value. *)
Definition deactivating (kv : list (string * json)) : bool :=
  match dict_find kv "is_active" with
  | Some v => negb (truthy v)
  | None => false
  end.

Section Payload.

Variable int_of_str : string -> option Z.
Variable clock : nat -> string.

(** What the payload of an upsert holds under the name [f], read off the
    input. *)
Definition expected_field (t : string) (kv : list (string * json)) (f : string)
    : option json :=
  if decide ("last_mention" = f) then
    if score_positive kv
    then Some (JStr (clock (if deactivating kv then 2%nat else 1%nat)))
    else None
  else if decide ("notes" = f) then dict_find kv "notes"
  else if decide ("deactivated_at" = f) then
    if deactivating kv then Some (JStr (clock 1%nat)) else None
  else if decide ("is_active" = f) then
    (fun v => JBool (truthy v)) <$> dict_find kv "is_active"
  else if decide ("score" = f) then
    JNum <$> (dict_find kv "score" ≫= py_int int_of_str)
  else if decide ("category" = f) then dict_find kv "category"
  else if decide ("sector" = f) then dict_find kv "sector"
  else if decide ("company_name" = f) then dict_find kv "company_name"
  else if decide ("last_scanned" = f) then Some (JStr (clock 0%nat))
  else if decide ("ticker" = f) then Some (JStr t)
  else None.

End Payload.

(** ** Worlds and stores used as examples *)

Definition article (headline summary : string) : json :=
  JObj [("headline", JStr headline); ("summary", JStr summary)].

(** One article that names two tier-1 keywords. *)
Definition two_tier1_world : world :=
  {| finnhub_api_key := Some "key";
     profile_reply := None;
     news_reply := Some (JArr [article "New LLM beats GPT" ""]) |}.

(** Both requests answer, and nothing they say is a keyword. *)
Definition burger_world : world :=
  {| finnhub_api_key := Some "key";
     profile_reply := Some (JObj [("name", JStr "Burger Barn");
       ("finnhubIndustry", JStr "Restaurants");
       ("description", JStr "We grill burgers")]);
     news_reply := Some (JArr [article "Burger sales up" "A good quarter"]) |}.

(** Both requests raise. *)
Definition silent_world : world :=
  {| finnhub_api_key := Some "key"; profile_reply := None; news_reply := None |}.

(** No credential. *)
Definition keyless_world : world :=
  {| finnhub_api_key := None; profile_reply := None; news_reply := None |}.

(** A profile worth 40 points. *)
Definition borderline_world : world :=
  {| finnhub_api_key := Some "key";
     profile_reply := Some (JObj [("name", JStr "Acme");
       ("description", JStr "Machine learning and deep learning on our GPT-style LLM")]);
     news_reply := Some (JArr []) |}.

(** A validator that is down. *)
Definition failing_validator : validator := fun _ _ => Raise "timeout".




(** A description with two tier-1 keywords, and one with three tier-2
    keywords. *)
Definition two_strong_world : world :=
  {| finnhub_api_key := Some "key";
     profile_reply := Some (JObj [("description", JStr "GPT and LLM products")]);
     news_reply := Some (JArr []) |}.

Definition three_weak_world : world :=
  {| finnhub_api_key := Some "key";
     profile_reply :=
       Some (JObj [("description", JStr "NLP and automation for the data center")]);
     news_reply := Some (JArr []) |}.

(** Nine articles without a keyword followed by one that names a tier-1
    keyword; and the same feed behind a new article with a tier-2
    keyword. *)
Definition full_feed : list json :=
  repeat (article "Quarterly results" "") 9 ++ [article "GPT inside" ""].

Definition full_feed_world : world :=
  {| finnhub_api_key := Some "key"; profile_reply := None;
     news_reply := Some (JArr full_feed) |}.

Definition longer_feed_world : world :=
  {| finnhub_api_key := Some "key"; profile_reply := None;
     news_reply := Some (JArr (article "NLP roadmap" "" :: full_feed)) |}.

(** A row of the universe with a ticker, an activity flag and a score. *)
Definition stock (ticker : string) (is_active : bool) (score : Z) : row :=
  <["ticker" := JStr ticker]>
    (<["is_active" := JBool is_active]> {["score" := JNum score]}).

(** Three active records and an inactive one. *)
Definition example_universe : list row :=
  [stock "AAA" true 90; stock "BBB" true 75; stock "CCC" true 60; stock "DDD" false 95].

Definition example_filters : list (string * json) :=
  [("is_active", JBool true); ("min_score", JNum 70); ("limit", JNum 50)].

(** The filters [example_filters] spells. *)
Definition example_query : filters :=
  {| f_is_active := Some true; f_min_score := Some 70; f_max_score := None;
     f_category := None; f_limit := Some 50%nat |}.

(** ** Further vocabulary of the scanner *)

(** The ticker a scan output carries. *)
Definition out_ticker (o : scan_output) : string :=
  match o with ScanResult r => r_ticker r | ScanError t _ => t end.

Definition is_request (e : event) : bool :=
  match e with HttpGet _ => true | _ => false end.

(** The requests of a trace, in order. *)
Definition requests (tr : list event) : list event := List.filter is_request tr.

(** A keyword-stage result after the validation the tool is wired to:
    only the evidence text grows. *)
Definition with_validation_note (r : scan_result) : scan_result :=
  {| r_ticker := r_ticker r;
     r_company_name := r_company_name r;
     r_sector := r_sector r;
     r_has_ai := r_has_ai r;
     r_score := r_score r;
     r_category := r_category r;
     r_evidence := r_evidence r
       +:+ " | LLM: LLM validation not implemented yet - using keyword scoring" |}.

(** A world, by its three parts. *)
Definition world_of (key : option string) (profile news : option json) : world :=
  {| finnhub_api_key := key; profile_reply := profile; news_reply := news |}.

(** A text of ASCII characters only. *)
Fixpoint ascii_text (s : string) : bool :=
  match s with
  | EmptyString => true
  | String c r => (N_of_ascii c <? 128)%N && ascii_text r
  end.

(** An article the loop can read: a dict whose headline and summary, when
    present, are strings. *)
Definition readable (article : json) : bool :=
  match article_text article with Some _ => true | None => false end.

(** The two locals the profile block assigns besides the score. *)
Definition names (st : scoring) : json * json := (company_name st, sector st).

(** The evidence notes of a keyword-stage run. *)
Definition notes_of (w : world) : list string :=
  profile_notes (profile_reply w) ++ news_notes (scanned_news (news_reply w)).

(** Every note the two loops can append. *)
Definition all_notes : list string :=
  (description_note <$> (tier1_keywords ++ tier2_keywords))
  ++ (news_note <$> tier1_keywords).

(** The keywords of the category [ai_cloud]. *)
Definition cloud_keywords : list string :=
  ["ai inference"; "model training"; "ai infrastructure"; "gpu cloud"].

(** The first [n] characters of a string. *)
Fixpoint str_take (n : nat) (s : string) : string :=
  match n, s with
  | S n, String c r => String c (str_take n r)
  | _, _ => EmptyString
  end.

(** Keyword [p] occurs neither in a lower-cased note nor across the
    blank between two of them. *)
Definition absent_from_notes (p : string) : bool :=
  let l := Py.lower <$> all_notes in
  let k := (Stdlib.Strings.String.length p - 1)%nat in
  negb (Stdlib.Strings.String.prefix " " p)
  && negb (Py.contains p "")
  && forallb (fun n => negb (Py.contains p n)) l
  && forallb (fun n =>
       forallb (fun n2 =>
         (k <=? Stdlib.Strings.String.length (" " +:+ n2))%nat
         && negb (Py.contains p (n +:+ str_take k (" " +:+ n2)))) l) l.

(** A description that names five tier-1 keywords and then a chip. *)
Definition six_keyword_world : world :=
  {| finnhub_api_key := Some "key";
     profile_reply := Some (JObj [("name", JStr "Acme");
       ("description",
        JStr "Artificial intelligence, machine learning, deep learning, a neural network and a large language model on our TPU")]);
     news_reply := Some (JArr []) |}.


(** The clock of the examples. *)
Definition example_clock (n : nat) : string :=
  match n with O => "t0" | S O => "t1" | _ => "t2" end.

(** [int(s)] for the numerals the examples use. *)
Definition example_int (s : string) : option Z :=
  if (s =? "50")%string then Some 50 else None.

(** ** The shared tools, the dashboard helpers and the loader *)

(** [check_market_status] of [app/agents/tools.py], on the weekday, hour
    and minute of the Eastern clock: the word it puts in its message. *)
Module Market.

Definition is_weekday (weekday : Z) : bool := weekday <? 5.

Definition is_market_hours (hour minute : Z) : bool :=
  ((9 <? hour) || ((hour =? 9) && (30 <=? minute))) && (hour <? 16).

Definition status (weekday hour minute : Z) : string :=
  if is_weekday weekday && is_market_hours hour minute then "OPEN" else "CLOSED".

End Market.

(** [_positions_summary] of [app/dashboard/utils.py], on a list of
    dicts. *)
Module Positions.

Abbreviation position := (list (string * json)).

(** [p.get('status') == 'open']. *)
Definition is_open (p : position) : bool :=
  match dict_find p "status" with
  | Some (JStr s) => (s =? "open")%string
  | _ => false
  end.

(** [p.get('pnl', 0) or 0]. *)
Definition pnl_or_zero (p : position) : json :=
  let v := dict_get p "pnl" (JNum 0) in
  if truthy v then v else JNum 0.

(** A Python number: an [int] or a [float]. *)
Inductive number :=
| Int (n : Z)
| Float (x : pyfloat).

Record summary := {
  open_count : nat;
  closed_count : nat;
  total_pnl : number
}.

Section Sum.

(** The sum of two floats, rounded as the machine rounds it, and
    [float(n)], which raises OverflowError on an integer too large for a
    float. *)
Variable float_add : pyfloat -> pyfloat -> pyfloat.
Variable float_of_int : Z -> option pyfloat.

(** [a + b] on numbers: an [int] meets a [float] as a [float]. *)
Definition plus (a b : number) : option number :=
  match a, b with
  | Int m, Int n => Some (Int (m + n))
  | Int m, Float y => x ← float_of_int m; Some (Float (float_add x y))
  | Float x, Int n => y ← float_of_int n; Some (Float (float_add x y))
  | Float x, Float y => Some (Float (float_add x y))
  end.

(** The number a value is in a sum; [None] for a value [+] raises
    TypeError on. *)
Definition as_number (v : json) : option number :=
  match v with
  | JNum n => Some (Int n)
  | JBool b => Some (Int (if b then 1 else 0))
  | JFloat x => Some (Float x)
  | _ => None
  end.

(** One step of [sum]: [total + v], or [None] when it raises. *)
Definition add (total : option number) (v : json) : option number :=
  t ← total; n ← as_number v; plus t n.

Definition _positions_summary (positions : list position) : option summary :=
  let open_pos := List.filter is_open positions in
  let closed_pos := List.filter (fun p => negb (is_open p)) positions in
  total ← foldl add (Some (Int 0)) (pnl_or_zero <$> closed_pos);
  Some {| open_count := length open_pos;
          closed_count := length closed_pos;
          total_pnl := total |}.

End Sum.

End Positions.

(** The end of [load_russell3000] in [scripts/load_russell3000.py]: the
    prepared stocks are deduplicated by ticker and upserted in batches. *)
Module Russell.

Section Loader.

Context {stock : Type}.

(** [stock['ticker']]. *)
Variable ticker : stock -> string.

(** [seen[k] = v] on a dict, which keeps its keys in insertion order. *)
Fixpoint dict_set (k : string) (v : stock) (seen : list (string * stock))
    : list (string * stock) :=
  match seen with
  | [] => [(k, v)]
  | (k', v') :: rest =>
      if (k' =? k)%string then (k, v) :: rest else (k', v') :: dict_set k v rest
  end.

(** [seen = {}; for stock in stocks: seen[stock['ticker']] = stock;
    stocks = list(seen.values())]. *)
Definition dedup (stocks : list stock) : list stock :=
  snd <$> foldl (fun seen s => dict_set (ticker s) s seen) [] stocks.

(** [range(0, stop, step)]. *)
Definition range (stop step : nat) : list nat :=
  (fun j => (j * step)%nat) <$> seq 0 ((stop + step - 1) / step).

(** [for i in range(0, total, batch_size): batch = stocks[i:i+batch_size]]:
    the batches, in the order they are upserted. *)
Definition batches (batch_size : nat) (stocks : list stock) : list (list stock) :=
  (fun i => take batch_size (drop i stocks)) <$> range (length stocks) batch_size.

(** The last stock of the list with this ticker. *)
Definition last_of (k : string) (stocks : list stock) : option stock :=
  List.find (fun s => (ticker s =? k)%string) (rev stocks).

End Loader.

End Russell.

(** [seen.get(k)] on the dict of the loader. *)
Definition seen_get {stock : Type} (k : string) (seen : list (string * stock))
    : option stock :=
  snd <$> List.find (fun p => (fst p =? k)%string) seen.

(** ** Proof automation *)

(** Unfold the monad of the tools. *)
Ltac run_M :=
  cbv [mbind mret M_bind M_ret bind ret raise emit lift try_except run returned trace_of].


(** * Properties *)

(** ** Running the tools *)

Lemma keyword_scoring_run (w : world) (t : string) (tr : list event) :
  _keyword_scoring w t tr =
  if key_missing (finnhub_api_key w)
  then (Raise "FINNHUB_API_KEY not set", tr ++ [Getenv])
  else (Ret (keyword_result t (keyword_locals w t)), tr ++ fetch_trace w t).
Proof.
  unfold _keyword_scoring, getenv, guarded, keyword_locals, fetch_trace.
  run_M.
  destruct (key_missing (finnhub_api_key w)); [reflexivity|].
  fold (initial_locals t).
  destruct (excepted (profile_block t (profile_reply w) (initial_locals t)));
    destruct (excepted (news_block (news_reply w) _));
    cbn; rewrite <- ?app_assoc; reflexivity.
Qed.

Lemma scan_with_run (v : validator) (w : world) (ticker : string) :
  run (scan_with v w ticker) =
  let t := normalize ticker in
  let r := keyword_result t (keyword_locals w t) in
  if key_missing (finnhub_api_key w)
  then (Ret (ScanError t "FINNHUB_API_KEY not set"), [Getenv])
  else if in_band (r_score r)
       then (Ret (validated v t r), fetch_trace w t ++ [LlmValidation (r_score r)])
       else (Ret (ScanResult r), fetch_trace w t).
Proof.
  unfold scan_with, scan_body, call_validator, validated, run.
  run_M. fold (normalize ticker).
  rewrite keyword_scoring_run. cbn zeta.
  destruct (key_missing (finnhub_api_key w)); [reflexivity|].
  fold (in_band (r_score (keyword_result (normalize ticker) (keyword_locals w (normalize ticker))))).
  destruct (in_band _); [|reflexivity].
  destruct (v _ _); reflexivity.
Qed.

Lemma fetch_trace_no_validation (w : world) (t : string) :
  validator_calls (fetch_trace w t) = 0%nat.
Proof.
  unfold fetch_trace, validator_calls.
  destruct (excepted _); destruct (excepted _); reflexivity.
Qed.

Lemma validator_calls_app (tr tr' : list event) :
  validator_calls (tr ++ tr') = (validator_calls tr + validator_calls tr')%nat.
Proof. unfold validator_calls. by rewrite List.filter_app, length_app. Qed.

(** ** The score the loops accumulate *)

Lemma score_each_score (keywords : list string) (p : Z) (d : string) (st : scoring) :
  score (score_each keywords p d st) = score st + p * count_hits keywords d.
Proof.
  unfold count_hits, hits.
  revert st. induction keywords as [|k rest IH]; intros st; cbn [score_each List.filter].
  - cbn. lia.
  - rewrite IH. destruct (Py.contains k d); cbn [add_hit score length]; lia.
Qed.

Lemma score_each_evidence (keywords : list string) (p : Z) (d : string) (st : scoring) :
  evidence (score_each keywords p d st)
  = evidence st ++ (description_note <$> hits keywords d).
Proof.
  unfold hits.
  revert st. induction keywords as [|k rest IH]; intros st; cbn [score_each List.filter].
  - cbn. by rewrite app_nil_r.
  - rewrite IH. destruct (Py.contains k d); cbn [add_hit evidence fmap list_fmap].
    + by rewrite <- app_assoc.
    + done.
Qed.

Lemma score_description_score (d : string) (st : scoring) :
  score (score_description d st) = score st + description_points d.
Proof.
  unfold score_description, description_points.
  rewrite !score_each_score. lia.
Qed.

Lemma first_hit_any (keywords : list string) (text : string) :
  any_hit keywords text = match first_hit keywords text with Some _ => true | None => false end.
Proof.
  unfold any_hit. induction keywords as [|k rest IH]; cbn; [done|].
  destruct (Py.contains k text); cbn; [done|apply IH].
Qed.

Lemma score_article_score (text : string) (st : scoring) :
  score (score_article text st) = score st + article_points text.
Proof.
  unfold score_article, article_points. rewrite !first_hit_any.
  destruct (first_hit tier1_keywords text), (first_hit tier2_keywords text);
    cbn [add_hit score]; lia.
Qed.

Lemma score_article_evidence (text : string) (st : scoring) :
  evidence (score_article text st) = evidence st ++ news_notes [text].
Proof.
  unfold score_article, news_notes. cbn [omap list_omap].
  destruct (first_hit tier1_keywords text), (first_hit tier2_keywords text);
    cbn [add_hit evidence fmap option_fmap option_map]; by rewrite ?app_nil_r.
Qed.

Lemma count_hits_nonneg (keywords : list string) (text : string) :
  0 <= count_hits keywords text.
Proof. unfold count_hits. lia. Qed.

Lemma description_points_nonneg (d : string) : 0 <= description_points d.
Proof.
  unfold description_points.
  pose proof (count_hits_nonneg tier1_keywords d).
  pose proof (count_hits_nonneg tier2_keywords d). lia.
Qed.

Lemma article_points_nonneg (text : string) : 0 <= article_points text.
Proof.
  unfold article_points.
  destruct (any_hit tier1_keywords text), (any_hit tier2_keywords text); lia.
Qed.

Lemma sum_points_nonneg (texts : list string) : 0 <= sum_points texts.
Proof.
  induction texts as [|t rest IH]; cbn; [lia|].
  pose proof (article_points_nonneg t). unfold sum_points in IH. lia.
Qed.

Lemma scan_articles_score (articles : list json) (st : scoring) :
  score (locals_of (scan_articles articles st))
  = score st + sum_points (scanned_texts articles).
Proof.
  revert st. induction articles as [|a rest IH]; intros st; cbn [scan_articles scanned_texts].
  - cbn. lia.
  - destruct (article_text a) as [text|]; cbn [locals_of sum_points foldr].
    + rewrite IH, score_article_score. unfold sum_points. lia.
    + lia.
Qed.

Lemma news_notes_cons (text : string) (texts : list string) :
  news_notes (text :: texts) = news_notes [text] ++ news_notes texts.
Proof.
  unfold news_notes. cbn [omap list_omap].
  destruct (news_note <$> first_hit tier1_keywords text); reflexivity.
Qed.

Lemma scan_articles_evidence (articles : list json) (st : scoring) :
  evidence (locals_of (scan_articles articles st))
  = evidence st ++ news_notes (scanned_texts articles).
Proof.
  revert st. induction articles as [|a rest IH]; intros st; cbn [scan_articles scanned_texts].
  - cbn. by rewrite app_nil_r.
  - destruct (article_text a) as [text|]; cbn [locals_of].
    + rewrite IH, score_article_evidence, (news_notes_cons text (scanned_texts rest)).
      by rewrite <- app_assoc.
    + cbn. by rewrite app_nil_r.
Qed.

Lemma news_block_score (reply : option json) (st : scoring) :
  score (locals_of (news_block reply st)) = score st + sum_points (scanned_news reply).
Proof.
  unfold news_block, scanned_news.
  destruct reply as [[| | |s| | |]|]; cbn [locals_of sum_points foldr]; try lia.
  - destruct (s =? "")%string; cbn; lia.
  - apply scan_articles_score.
Qed.

Lemma news_block_evidence (reply : option json) (st : scoring) :
  evidence (locals_of (news_block reply st)) = evidence st ++ news_notes (scanned_news reply).
Proof.
  unfold news_block, scanned_news.
  destruct reply as [[| | |s| | |]|]; cbn [locals_of news_notes omap list_omap];
    rewrite ?app_nil_r; try done.
  - destruct (s =? "")%string; cbn; done.
  - apply scan_articles_evidence.
Qed.

Lemma profile_block_score (t : string) (reply : option json) (st : scoring) :
  score (locals_of (profile_block t reply st)) = score st + profile_points reply.
Proof.
  unfold profile_block, profile_points, scanned_description.
  destruct reply as [v|]; [|cbn; lia].
  destruct v as [|b|n|s|l|kv|x].
  1-5, 7: by destruct (truthy _); cbn [locals_of]; lia.
  destruct (truthy (JObj kv)); [|cbn [locals_of]; lia].
  destruct (dict_get kv "description" (JStr "")); cbn [locals_of score]; try lia.
  by rewrite score_description_score.
Qed.

Lemma keyword_locals_score (w : world) (t : string) :
  score (keyword_locals w t)
  = profile_points (profile_reply w) + sum_points (scanned_news (news_reply w)).
Proof.
  unfold keyword_locals. rewrite news_block_score, profile_block_score. cbn. lia.
Qed.

Lemma keyword_locals_nonneg (w : world) (t : string) : 0 <= score (keyword_locals w t).
Proof.
  rewrite keyword_locals_score.
  pose proof (sum_points_nonneg (scanned_news (news_reply w))).
  unfold profile_points. destruct (scanned_description _) as [d|]; [|lia].
  pose proof (description_points_nonneg d). lia.
Qed.

Lemma profile_block_evidence (t : string) (reply : option json) (st : scoring) :
  evidence (locals_of (profile_block t reply st)) = evidence st ++ profile_notes reply.
Proof.
  unfold profile_block, profile_notes, scanned_description.
  destruct reply as [v|]; [|cbn; by rewrite app_nil_r].
  destruct v as [|b|n|s|l|kv|x].
  1-5, 7: by destruct (truthy _); cbn [locals_of]; rewrite app_nil_r.
  destruct (truthy (JObj kv)); [|cbn [locals_of]; by rewrite app_nil_r].
  destruct (dict_get kv "description" (JStr "")); cbn [locals_of evidence];
    rewrite ?app_nil_r; try done.
  unfold score_description. rewrite !score_each_evidence. cbn [evidence].
  by rewrite fmap_app, app_assoc.
Qed.

Lemma keyword_locals_evidence (w : world) (t : string) :
  evidence (keyword_locals w t)
  = profile_notes (profile_reply w) ++ news_notes (scanned_news (news_reply w)).
Proof.
  unfold keyword_locals. by rewrite news_block_evidence, profile_block_evidence.
Qed.

(** Evidence is only recorded together with points. *)
Lemma profile_notes_points (reply : option json) :
  5 * Z.of_nat (length (profile_notes reply)) <= profile_points reply.
Proof.
  unfold profile_notes, profile_points.
  destruct (scanned_description reply) as [d|]; [|cbn; lia].
  rewrite length_fmap, length_app. unfold description_points, count_hits. lia.
Qed.

Lemma news_notes_points (texts : list string) :
  5 * Z.of_nat (length (news_notes texts)) <= sum_points texts.
Proof.
  induction texts as [|t rest IH]; [cbn; lia|].
  rewrite news_notes_cons, length_app. cbn [sum_points foldr].
  fold (sum_points rest).
  assert (5 * Z.of_nat (length (news_notes [t])) <= article_points t); [|lia].
  unfold news_notes, article_points. cbn [omap list_omap].
  rewrite !first_hit_any.
  destruct (first_hit tier1_keywords t), (first_hit tier2_keywords t); cbn; lia.
Qed.

Lemma no_points_no_evidence (w : world) (t : string) :
  score (keyword_locals w t) <= 0 -> evidence (keyword_locals w t) = [].
Proof.
  rewrite keyword_locals_score, keyword_locals_evidence. intros Hs.
  pose proof (profile_notes_points (profile_reply w)).
  pose proof (news_notes_points (scanned_news (news_reply w))).
  destruct (profile_notes _); [|cbn in *; lia].
  destruct (news_notes _); [done|cbn in *; lia].
Qed.

(** ** Categories *)

Lemma categorize_named (ev : list string) :
  In (_categorize_stock ev) ["ai_chip"; "ai_software"; "ai_cloud"; "ai_beneficiary"].
Proof.
  unfold _categorize_stock, tier1_categories. cbn [first_category].
  repeat (match goal with |- context [first_hit ?l ?t] => destruct (first_hit l t) end);
    cbn; tauto.
Qed.

Lemma category_or_default_categorize (ev : list string) :
  category_or_default (Some (_categorize_stock ev)) = _categorize_stock ev.
Proof.
  pose proof (categorize_named ev) as H. cbn in H.
  destruct H as [<-|[<-|[<-|[<-|[]]]]]; reflexivity.
Qed.

Lemma keyword_result_category (w : world) (t : string) :
  r_category (keyword_result t (keyword_locals w t))
  = _categorize_stock (evidence (keyword_locals w t)).
Proof.
  unfold keyword_result. cbn [r_category].
  destruct (0 <? Z.min (score (keyword_locals w t)) 100) eqn:Hpos.
  - apply category_or_default_categorize.
  - rewrite no_points_no_evidence; [reflexivity|].
    apply Z.ltb_ge in Hpos. lia.
Qed.

(** ** The scan as wired *)

Lemma scan_run (w : world) (ticker : string) :
  run (_scan_stock_for_ai w ticker) =
  let t := normalize ticker in
  let r := keyword_result t (keyword_locals w t) in
  if key_missing (finnhub_api_key w)
  then (Ret (ScanError t "FINNHUB_API_KEY not set"), [Getenv])
  else if in_band (r_score r)
       then (Ret (validated llm_validator t r),
             fetch_trace w t ++ [LlmValidation (r_score r)])
       else (Ret (ScanResult r), fetch_trace w t).
Proof. apply scan_with_run. Qed.

Lemma validated_stub_score (t : string) (r : scan_result) :
  out_score (validated llm_validator t r) = r_score r.
Proof. reflexivity. Qed.

Lemma keyword_result_score (t : string) (st : scoring) :
  r_score (keyword_result t st) = Z.min (score st) 100.
Proof. reflexivity. Qed.

Lemma keyword_result_has_ai (t : string) (st : scoring) :
  r_has_ai (keyword_result t st) = (40 <=? r_score (keyword_result t st)).
Proof. reflexivity. Qed.


(** ** Claims *)

(** C1 (as amended). In the article loop each tier counts once per
    article: an article adds 10 points when at least one tier-1 keyword
    occurs in its headline-and-summary text, however many do, and 5 points
    when at least one tier-2 keyword occurs; the keyword stage returns the
    points of the description plus those of the scored articles, capped
    at 100. *)
Theorem article_counts_each_tier_once (w : world) (ticker text : string) (st : scoring) :
  score (score_article text st)
  = score st + (if any_hit tier1_keywords text then 10 else 0)
             + (if any_hit tier2_keywords text then 5 else 0)
  /\ match returned (_keyword_scoring w ticker) with
     | Ret r =>
         r_score r = Z.min (profile_points (profile_reply w)
                            + sum_points (scanned_news (news_reply w))) 100
     | Raise _ => key_missing (finnhub_api_key w) = true
     end.
Proof.
  split.
  - rewrite score_article_score. unfold article_points. lia.
  - unfold returned, run. rewrite keyword_scoring_run.
    destruct (key_missing (finnhub_api_key w)); cbn [fst]; [done|].
    by rewrite keyword_result_score, keyword_locals_score.
Qed.

(** C1 (as stated) fails: an article whose text holds the two tier-1
    keywords "llm" and "gpt" adds 10 points, not 20. *)
Lemma article_two_tier1_keywords_scores_ten :
  let text := "new llm beats gpt " in
  scanned_news (news_reply two_tier1_world) = [text]
  /\ hits tier1_keywords text = ["llm"; "gpt"]
  /\ score (score_article text (initial_locals "ACME")) = 10
  /\ score (score_article text (initial_locals "ACME"))
     <> 0 + 10 * count_hits tier1_keywords text + 5 * count_hits tier2_keywords text
  /\ (r_score <$> (match returned (_keyword_scoring two_tier1_world "ACME") with
                   | Ret r => Some r | Raise _ => None end)) = Some 10.
Proof. vm_compute. repeat split; congruence. Qed.

(** C2 (as amended). A scan that accumulated no points returns score 0
    and has_ai false, and its category is the default "ai_beneficiary";
    only the error result of a scan without credential has no category. *)
Theorem no_match_scan_result (w : world) (ticker : string) :
  score (keyword_locals w (normalize ticker)) = 0 ->
  exists out tr,
    run (_scan_stock_for_ai w ticker) = (Ret out, tr)
    /\ out_score out = 0
    /\ out_has_ai out = false
    /\ out_category out
       = if key_missing (finnhub_api_key w) then None else Some "ai_beneficiary".
Proof.
  intros Hs. rewrite scan_run. cbn zeta.
  destruct (key_missing (finnhub_api_key w)); [by eexists _, _|].
  assert (Hr : r_score (keyword_result (normalize ticker)
                 (keyword_locals w (normalize ticker))) = 0)
    by (rewrite keyword_result_score, Hs; reflexivity).
  rewrite Hr. cbn [in_band Z.leb Z.compare andb].
  eexists _, _. split; [reflexivity|].
  cbn [out_score out_has_ai out_category].
  rewrite keyword_result_has_ai, Hr, keyword_result_category.
  rewrite no_points_no_evidence by lia. by vm_compute.
Qed.

Lemma no_match_scan_result_witness :
  score (keyword_locals burger_world (normalize "brgr")) = 0
  /\ exists out tr,
       run (_scan_stock_for_ai burger_world "brgr") = (Ret out, tr)
       /\ out_score out = 0
       /\ out_has_ai out = false
       /\ out_category out = Some "ai_beneficiary".
Proof.
  split; [reflexivity|].
  apply (no_match_scan_result burger_world "brgr"). reflexivity.
Defined.

(** C2 (as stated) fails: with a profile and news that name no keyword the
    accumulated score is 0 and the category is "ai_beneficiary", not
    unset. *)
Lemma no_match_category_defaulted :
  score (keyword_locals burger_world (normalize "brgr")) = 0
  /\ (out_category <$> (match returned (_scan_stock_for_ai burger_world "brgr") with
                        | Ret out => Some out | Raise _ => None end))
     = Some (Some "ai_beneficiary")
  /\ Some "ai_beneficiary" <> (None : option string).
Proof. vm_compute. repeat split; congruence. Qed.





(** C4 (as amended). When the validator raises on a borderline scan, the
    scan still returns, once the validator was called once: it returns the
    error result of its except clause, which carries the ticker and the
    error text with has_ai false and score 0, and neither the keyword-stage
    score nor the category. *)
Theorem validator_failure_yields_error_result
    (v : validator) (w : world) (ticker msg : string) :
  key_missing (finnhub_api_key w) = false ->
  in_band (Z.min (score (keyword_locals w (normalize ticker))) 100) = true ->
  v (normalize ticker)
    (keyword_result (normalize ticker) (keyword_locals w (normalize ticker)))
  = Raise msg ->
  exists tr,
    run (scan_with v w ticker) = (Ret (ScanError (normalize ticker) msg), tr)
    /\ validator_calls tr = 1%nat.
Proof.
  intros Hkey Hband Hv. rewrite scan_with_run. cbn zeta.
  rewrite Hkey, keyword_result_score, Hband.
  unfold validated. rewrite Hv.
  eexists. split; [reflexivity|].
  by rewrite validator_calls_app, fetch_trace_no_validation.
Qed.

Lemma validator_failure_yields_error_result_witness :
  exists tr,
    run (scan_with failing_validator borderline_world "acme")
    = (Ret (ScanError "ACME" "timeout"), tr)
    /\ validator_calls tr = 1%nat.
Proof.
  apply (validator_failure_yields_error_result
           failing_validator borderline_world "acme" "timeout");
    reflexivity.
Defined.

(** C4 (as stated) fails: with a keyword-stage score of 40 and a validator
    that raises, the scan returns score 0 and no category. *)
Lemma validator_failure_loses_keyword_score :
  (r_score <$> (match returned (_keyword_scoring borderline_world "ACME") with
                | Ret r => Some r | Raise _ => None end)) = Some 40
  /\ returned (scan_with failing_validator borderline_world "acme")
     = Ret (ScanError "ACME" "timeout")
  /\ out_score (ScanError "ACME" "timeout") <> 40
  /\ out_category (ScanError "ACME" "timeout") = None.
Proof. vm_compute. repeat split; congruence. Qed.

(** C5 (as amended). When both requests raise, the scan returns score 0,
    has_ai false, the default category "ai_beneficiary" and an empty
    evidence text; without credential it returns the error result, with
    score 0 and has_ai false and neither category nor evidence. *)
Theorem both_fetches_fail (w : world) (ticker : string) :
  profile_reply w = None ->
  news_reply w = None ->
  exists out tr,
    run (_scan_stock_for_ai w ticker) = (Ret out, tr)
    /\ out_score out = 0
    /\ out_has_ai out = false
    /\ if key_missing (finnhub_api_key w)
       then out_category out = None /\ out_evidence out = None
       else out_category out = Some "ai_beneficiary" /\ out_evidence out = Some "".
Proof.
  intros Hp Hn. rewrite scan_run. cbn zeta.
  destruct (key_missing (finnhub_api_key w)); [by eexists _, _|].
  unfold keyword_locals. rewrite Hp, Hn. cbn.
  eexists _, _. by repeat split.
Qed.

Lemma both_fetches_fail_witness :
  exists out tr,
    run (_scan_stock_for_ai silent_world "nvda") = (Ret out, tr)
    /\ out_score out = 0
    /\ out_has_ai out = false
    /\ out_category out = Some "ai_beneficiary" /\ out_evidence out = Some "".
Proof.
  apply (both_fetches_fail silent_world "nvda"); reflexivity.
Defined.

(** C5 (as stated) fails: when both requests raise the category of the
    result is "ai_beneficiary", not unset. *)
Lemma both_fetches_fail_category_defaulted :
  profile_reply silent_world = None
  /\ news_reply silent_world = None
  /\ (out_category <$> (match returned (_scan_stock_for_ai silent_world "nvda") with
                        | Ret out => Some out | Raise _ => None end))
     = Some (Some "ai_beneficiary")
  /\ Some "ai_beneficiary" <> (None : option string).
Proof. vm_compute. repeat split; congruence. Qed.

(** ** Monotonicity *)

Lemma filter_length_mono {A} (P Q : A -> bool) (l : list A) :
  (forall x, In x l -> P x = true -> Q x = true) ->
  (length (List.filter P l) <= length (List.filter Q l))%nat.
Proof.
  induction l as [|x l IH]; intros H; cbn [List.filter]; [done|].
  assert (IH' : (length (List.filter P l) <= length (List.filter Q l))%nat).
  { apply IH. intros y Hy. apply H. by right. }
  specialize (H x (or_introl eq_refl)).
  destruct (P x), (Q x); cbn [length]; first [lia | by specialize (H eq_refl)].
Qed.

Lemma existsb_mono {A} (P Q : A -> bool) (l : list A) :
  (forall x, In x l -> P x = true -> Q x = true) ->
  existsb P l = true -> existsb Q l = true.
Proof.
  intros H. rewrite !existsb_exists. intros (x & Hx & HP). eauto.
Qed.

Lemma hits_included_spec (a b k : string) :
  hits_included a b = true ->
  In k (tier1_keywords ++ tier2_keywords) ->
  Py.contains k a = true -> Py.contains k b = true.
Proof.
  unfold hits_included. rewrite forallb_forall. intros H Hk Ha.
  specialize (H k Hk). by rewrite Ha in H.
Qed.

Lemma description_points_mono (a b : string) :
  hits_included a b = true -> description_points a <= description_points b.
Proof.
  intros H. unfold description_points, count_hits, hits.
  assert ((length (List.filter (fun k => Py.contains k a) tier1_keywords)
           <= length (List.filter (fun k => Py.contains k b) tier1_keywords))%nat).
  { apply filter_length_mono. intros k Hk.
    apply (hits_included_spec a b k H), in_or_app. by left. }
  assert ((length (List.filter (fun k => Py.contains k a) tier2_keywords)
           <= length (List.filter (fun k => Py.contains k b) tier2_keywords))%nat).
  { apply filter_length_mono. intros k Hk.
    apply (hits_included_spec a b k H), in_or_app. by right. }
  lia.
Qed.

Lemma article_points_mono (a b : string) :
  hits_included a b = true -> article_points a <= article_points b.
Proof.
  intros H. unfold article_points.
  assert (H1 : any_hit tier1_keywords a = true -> any_hit tier1_keywords b = true).
  { apply existsb_mono. intros k Hk.
    apply (hits_included_spec a b k H), in_or_app. by left. }
  assert (H2 : any_hit tier2_keywords a = true -> any_hit tier2_keywords b = true).
  { apply existsb_mono. intros k Hk.
    apply (hits_included_spec a b k H), in_or_app. by right. }
  destruct (any_hit tier1_keywords a), (any_hit tier1_keywords b),
    (any_hit tier2_keywords a), (any_hit tier2_keywords b);
    try lia; try (by specialize (H1 eq_refl)); by specialize (H2 eq_refl).
Qed.

Lemma profile_points_mono (p p' : option json) :
  description_included (scanned_description p) (scanned_description p') = true ->
  profile_points p <= profile_points p'.
Proof.
  unfold profile_points, description_included.
  destruct (scanned_description p) as [a|], (scanned_description p') as [b|];
    intros H; try done; try lia.
  - by apply description_points_mono.
  - apply description_points_nonneg.
Qed.

Lemma scan_score (w : world) (ticker : string) :
  exists out tr,
    run (_scan_stock_for_ai w ticker) = (Ret out, tr)
    /\ out_score out
       = if key_missing (finnhub_api_key w) then 0
         else Z.min (profile_points (profile_reply w)
                     + sum_points (scanned_news (news_reply w))) 100.
Proof.
  rewrite scan_run. cbn zeta.
  destruct (key_missing (finnhub_api_key w)); [by eexists _, _|].
  set (r := keyword_result _ _).
  assert (Hr : r_score r = Z.min (profile_points (profile_reply w)
                 + sum_points (scanned_news (news_reply w))) 100).
  { unfold r. by rewrite keyword_result_score, keyword_locals_score. }
  destruct (in_band (r_score r)); eexists _, _; (split; [reflexivity|]).
  - by rewrite validated_stub_score.
  - done.
Qed.

Lemma profile_points_nonneg (p : option json) : 0 <= profile_points p.
Proof.
  unfold profile_points. destruct (scanned_description p); [|lia].
  apply description_points_nonneg.
Qed.

Lemma sum_points_embedded (l l' : list string) :
  news_embedded l l' = true -> sum_points l <= sum_points l'.
Proof.
  revert l. induction l' as [|b l' IH]; intros l H.
  - destruct l; [cbn; lia|done].
  - destruct l as [|a l]; [apply sum_points_nonneg|].
    cbn [news_embedded] in H. cbn [sum_points foldr].
    fold (sum_points l) (sum_points l').
    pose proof (article_points_nonneg b).
    apply orb_true_iff in H as [H|H].
    + apply andb_true_iff in H as [Hab Hl].
      pose proof (article_points_mono a b Hab). specialize (IH l Hl). lia.
    + specialize (IH (a :: l) H). cbn [sum_points foldr] in IH.
      fold (sum_points l) in IH. lia.
Qed.

Lemma keyword_stage_score (w : world) (ticker : string) (r : scan_result) :
  returned (_keyword_scoring w ticker) = Ret r ->
  r_score r = Z.min (profile_points (profile_reply w)
                     + sum_points (scanned_news (news_reply w))) 100.
Proof.
  unfold returned, run. rewrite keyword_scoring_run.
  destruct (key_missing (finnhub_api_key w)); cbn [fst]; [done|].
  intros [= <-]. by rewrite keyword_result_score, keyword_locals_score.
Qed.

(** C8 (as amended). The score of the keyword stage, and with it the
    score of every scan as wired, is an integer between 0 and 100. It does
    not grow with the number of keyword matches; it grows with the
    matches themselves: when a second world has the same credential, finds
    again every keyword the first finds in the description, and matches
    the scored articles of the first, in their order, by scored articles
    with at least their keywords, with further articles anywhere among
    them, its score is not lower. *)
Theorem score_bounded_and_monotone :
  (forall (w : world) (ticker : string) (r : scan_result),
     returned (_keyword_scoring w ticker) = Ret r -> 0 <= r_score r <= 100)
  /\ (forall (w : world) (ticker : string),
        exists out tr,
          run (_scan_stock_for_ai w ticker) = (Ret out, tr)
          /\ 0 <= out_score out <= 100)
  /\ (forall (w w' : world) (ticker : string),
        finnhub_api_key w = finnhub_api_key w' ->
        matches_embedded w w' = true ->
        exists out out' tr tr',
          run (_scan_stock_for_ai w ticker) = (Ret out, tr)
          /\ run (_scan_stock_for_ai w' ticker) = (Ret out', tr')
          /\ out_score out <= out_score out'
          /\ forall r r',
               returned (_keyword_scoring w ticker) = Ret r ->
               returned (_keyword_scoring w' ticker) = Ret r' ->
               r_score r <= r_score r').
Proof.
  split; [|split].
  - intros w ticker r Hr. rewrite (keyword_stage_score w ticker r Hr).
    pose proof (profile_points_nonneg (profile_reply w)).
    pose proof (sum_points_nonneg (scanned_news (news_reply w))). lia.
  - intros w ticker.
    destruct (scan_score w ticker) as (out & tr & Hrun & Hs).
    exists out, tr. split; [done|]. rewrite Hs.
    pose proof (profile_points_nonneg (profile_reply w)).
    pose proof (sum_points_nonneg (scanned_news (news_reply w))).
    destruct (key_missing _); lia.
  - intros w w' ticker Hkey Hinc.
    destruct (scan_score w ticker) as (out & tr & Hrun & Hs).
    destruct (scan_score w' ticker) as (out' & tr' & Hrun' & Hs').
    apply andb_true_iff in Hinc as [Hd Hn].
    pose proof (profile_points_mono _ _ Hd).
    pose proof (sum_points_embedded _ _ Hn).
    exists out, out', tr, tr'. repeat split; [done..| |].
    + rewrite Hs, Hs', <- Hkey. destruct (key_missing _); lia.
    + intros r r' Hr Hr'.
      rewrite (keyword_stage_score w ticker r Hr), (keyword_stage_score w' ticker r' Hr').
      lia.
Qed.

Lemma score_bounded_and_monotone_witness :
  let w :=
    {| finnhub_api_key := Some "key";
       profile_reply := Some (JObj [("description", JStr "We build GPT tools")]);
       news_reply := Some (JArr [article "LLM launch" ""]) |} in
  let w' :=
    {| finnhub_api_key := Some "key";
       profile_reply :=
         Some (JObj [("description", JStr "We build GPT tools with machine learning")]);
       news_reply := Some (JArr [article "NLP roadmap" ""; article "LLM launch" "for NLP";
                                 article "TPU" ""]) |} in
  exists out out' tr tr',
    run (_scan_stock_for_ai w "acme") = (Ret out, tr)
    /\ run (_scan_stock_for_ai w' "acme") = (Ret out', tr')
    /\ out_score out <= out_score out'
    /\ forall r r',
         returned (_keyword_scoring w "acme") = Ret r ->
         returned (_keyword_scoring w' "acme") = Ret r' ->
         r_score r <= r_score r'.
Proof.
  intros w w'.
  apply (proj2 (proj2 score_bounded_and_monotone) w w' "acme"); vm_compute; reflexivity.
Defined.

(** C8 (as stated) fails: a description with three matches scores 15
    while one with two matches scores 20; and a feed of ten articles that
    scores 10 scores 5 once an article with a keyword is put in front of
    it, since the tenth article is then no longer read. *)
Lemma more_matches_can_lower_score :
  let score_of (w : world) :=
    out_score <$> (match returned (_scan_stock_for_ai w "acme") with
                   | Ret out => Some out | Raise _ => None end) in
  (match_count two_strong_world = 2%nat
   /\ match_count three_weak_world = 3%nat
   /\ score_of two_strong_world = Some 20
   /\ score_of three_weak_world = Some 15)
  /\ (news_reply longer_feed_world
      = Some (JArr (article "NLP roadmap" "" :: full_feed))
      /\ news_reply full_feed_world = Some (JArr full_feed)
      /\ score_of full_feed_world = Some 10
      /\ score_of longer_feed_world = Some 5).
Proof. vm_compute. repeat split; reflexivity. Qed.

(** ** Evidence and category do not see tier-2 news hits *)

Lemma keyword_result_evidence (t : string) (st : scoring) :
  r_evidence (keyword_result t st) = Py.join " | " (take 5 (evidence st)).
Proof. reflexivity. Qed.




(** ** The payload of an upsert *)

Section UpsertFacts.

Variable int_of_str : string -> option Z.
Variable clock : nat -> string.

Lemma lookup_copy_field (kv : list (string * json)) (k f : string) (p : row) :
  copy_field kv k p !! f
  = if decide (k = f)
    then match dict_find kv k with Some v => Some v | None => p !! f end
    else p !! f.
Proof.
  unfold copy_field. destruct (dict_find kv k); case_decide; subst;
    by rewrite ?lookup_insert_eq, ?lookup_insert_ne by done.
Qed.

Lemma upsert_data_convertible (t : string) (kv : list (string * json)) :
  score_convertible kv = true ->
  exists payload, upsert_data int_of_str clock t (JObj kv) = Some payload.
Proof.
  unfold score_convertible, upsert_data, dict_get.
  destruct (dict_find kv "score") as [[| | | | | |[]]|]; try done; intros _;
    cbn [py_int py_gt_zero float_int mbind option_bind];
    destruct (dict_find kv "is_active") as [v|]; try destruct (truthy v);
    eexists; reflexivity.
Qed.



Lemma upsert_data_none (t : string) (kv : list (string * json)) :
  score_convertible kv = false -> upsert_data int_of_str clock t (JObj kv) = None.
Proof.
  unfold score_convertible, upsert_data, dict_get.
  destruct (dict_find kv "score") as [[| | |s| | |[]]|]; try done; intros _;
    cbn [py_int py_gt_zero float_int mbind option_bind]; try reflexivity.
  destruct (int_of_str s); cbn [mbind option_bind]; [|reflexivity].
  destruct (dict_find kv "is_active") as [v|]; try destruct (truthy v); reflexivity.
Qed.

Lemma upsert_data_lookup (t : string) (kv : list (string * json)) (payload : row)
    (f : string) :
  upsert_data int_of_str clock t (JObj kv) = Some payload ->
  payload !! f = expected_field int_of_str clock t kv f.
Proof.
  unfold upsert_data, expected_field, score_positive, deactivating, dict_get.
  intros H.
  destruct (dict_find kv "score") as [sc|] eqn:Hsc; cbn [mbind option_bind] in H.
  - destruct (py_int int_of_str sc) as [n|] eqn:Hn; cbn [mbind option_bind] in H;
      [|done].
    destruct (py_gt_zero sc) as [pos|] eqn:Hpos.
    2: { destruct (dict_find kv "is_active") as [v|]; [destruct (truthy v)|]; done. }
    assert (Hsp : match sc with
                  | JNum n => 0 <? n
                  | JBool b => b
                  | JFloat x => float_gt_zero x
                  | _ => false
                  end = pos)
      by (destruct sc; cbn in Hpos; congruence).
    rewrite Hsp. clear Hsp Hpos.
    destruct (dict_find kv "is_active") as [v|] eqn:Hact;
      [destruct (truthy v) eqn:Htr|];
      cbn [mbind option_bind negb fmap option_fmap option_map] in H |- *;
      destruct pos; injection H as <-;
      repeat first [ rewrite lookup_insert | rewrite lookup_copy_field
                   | rewrite lookup_singleton | rewrite lookup_empty ]; repeat (case_decide; simplify_eq; try done);
      first [ by rewrite ?Htr, ?Hn
            | by match goal with
                 | |- context [dict_find kv ?k] => destruct (dict_find kv k)
                 end ].
  - cbn [py_gt_zero Z.ltb Z.compare] in H.
    destruct (dict_find kv "is_active") as [v|] eqn:Hact;
      [destruct (truthy v) eqn:Htr|];
      cbn [mbind option_bind negb fmap option_fmap option_map] in H |- *;
      injection H as <-;
      repeat first [ rewrite lookup_insert | rewrite lookup_copy_field
                   | rewrite lookup_singleton | rewrite lookup_empty ]; repeat (case_decide; simplify_eq; try done);
      first [ by rewrite ?Htr, ?Hn
            | by match goal with
                 | |- context [dict_find kv ?k] => destruct (dict_find kv k)
                 end ].
Qed.

(** The stored rows. *)
Lemma row_ticker_union (payload old : row) (t : string) :
  row_ticker payload = Some t -> row_ticker (payload ∪ old) = Some t.
Proof.
  unfold row_ticker. intros H.
  destruct (payload !! "ticker") as [v|] eqn:Hp; [|done].
  by rewrite (lookup_union_Some_l payload old "ticker" v Hp).
Qed.



Lemma upsert_data_ticker (t : string) (kv : list (string * json)) (payload : row) :
  upsert_data int_of_str clock t (JObj kv) = Some payload ->
  row_ticker payload = Some t.
Proof.
  intros H. unfold row_ticker.
  by rewrite (upsert_data_lookup t kv payload "ticker" H).
Qed.

End UpsertFacts.






(** ** Queries *)

Lemma filter_permutation {A} (P : A -> bool) (l l' : list A) :
  l ≡ₚ l' -> List.filter P l ≡ₚ List.filter P l'.
Proof.
  induction 1 as [|x l l' _ IH|x y l|l l' l'' _ IH1 _ IH2]; cbn [List.filter].
  - done.
  - destruct (P x); by rewrite IH.
  - destruct (P x), (P y); try done. apply Permutation_swap.
  - by rewrite IH1.
Qed.

Lemma filter_filter_andb {A} (P Q : A -> bool) (l : list A) :
  List.filter Q (List.filter P l) = List.filter (fun x => P x && Q x) l.
Proof.
  induction l as [|x l IH]; [done|]. cbn [List.filter].
  destruct (P x); cbn [List.filter andb]; [destruct (Q x)|]; by rewrite IH.
Qed.

Lemma filter_all {A} (l : list A) : List.filter (fun _ => true) l = l.
Proof. induction l as [|x l IH]; [done|]. cbn. by rewrite IH. Qed.

Lemma when_present_eq_bool (kv : list (string * json)) (col : string)
    (o : option bool) (q : list row) :
  dict_find kv col = JBool <$> o ->
  when_present kv col (q_eq col) q
  = Some (List.filter
            (fun r => match o with
                      | Some b => match r !! col with
                                  | Some (JBool x) => Bool.eqb x b
                                  | _ => false
                                  end
                      | None => true
                      end) q).
Proof.
  unfold when_present. intros ->. destruct o as [b|]; cbn [fmap option_fmap option_map].
  - unfold q_eq. cbn [is_scalar]. f_equal. apply List.filter_ext. intros r.
    unfold column_eqb. destruct (r !! col) as [[|x| | | | |]|]; try done.
    cbn [scalar_eqb]. by destruct x, b.
  - by rewrite filter_all.
Qed.

Lemma when_present_eq_str (kv : list (string * json)) (col : string)
    (o : option string) (q : list row) :
  dict_find kv col = JStr <$> o ->
  when_present kv col (q_eq col) q
  = Some (List.filter
            (fun r => match o with
                      | Some c => match r !! col with
                                  | Some (JStr x) => (x =? c)%string
                                  | _ => false
                                  end
                      | None => true
                      end) q).
Proof.
  unfold when_present. intros ->. destruct o as [c|]; cbn [fmap option_fmap option_map].
  - reflexivity.
  - by rewrite filter_all.
Qed.

Lemma when_present_gte (kv : list (string * json)) (k : string)
    (o : option Z) (q : list row) :
  dict_find kv k = JNum <$> o ->
  when_present kv k (q_gte "score") q
  = Some (List.filter
            (fun r => match o with
                      | Some m => match int_column "score" r with
                                  | Some s => m <=? s
                                  | None => false
                                  end
                      | None => true
                      end) q).
Proof.
  unfold when_present. intros ->. destruct o as [m|]; cbn [fmap option_fmap option_map].
  - reflexivity.
  - by rewrite filter_all.
Qed.

Lemma when_present_lte (kv : list (string * json)) (k : string)
    (o : option Z) (q : list row) :
  dict_find kv k = JNum <$> o ->
  when_present kv k (q_lte "score") q
  = Some (List.filter
            (fun r => match o with
                      | Some m => match int_column "score" r with
                                  | Some s => s <=? m
                                  | None => false
                                  end
                      | None => true
                      end) q).
Proof.
  unfold when_present. intros ->. destruct o as [m|]; cbn [fmap option_fmap option_map].
  - reflexivity.
  - by rewrite filter_all.
Qed.

Lemma limit_encoded (kv : list (string * json)) (f : filters) (q : list row) :
  dict_find kv "limit" = (fun n => JNum (Z.of_nat n)) <$> f_limit f ->
  q_limit (dict_get kv "limit" (JNum 100)) q = Some (take (limit_of f) q).
Proof.
  unfold dict_get, limit_of. intros ->.
  destruct (f_limit f) as [n|]; cbn [fmap option_fmap option_map default q_limit].
  - rewrite (proj2 (Z.leb_le 0 (Z.of_nat n))) by lia. by rewrite Nat2Z.id.
  - reflexivity.
Qed.

(** The run of a well-typed query. *)
Lemma get_trading_universe_run (db : store) (kv : list (string * json)) (f : filters) :
  encodes kv f ->
  _get_trading_universe (Some db) (Some (JObj kv))
  = if reachable db
    then let stocks := take (limit_of f)
                         (q_order_desc "score"
                            (List.filter (passes f) (trading_universe db))) in
         Stocks (length stocks) stocks
    else QueryError.
Proof.
  intros (Hact & Hmin & Hmax & Hcat & Hlim).
  unfold _get_trading_universe.
  rewrite (when_present_eq_bool kv "is_active" _ _ Hact). cbn [mbind option_bind].
  rewrite (when_present_gte kv "min_score" _ _ Hmin). cbn [mbind option_bind].
  rewrite (when_present_lte kv "max_score" _ _ Hmax). cbn [mbind option_bind].
  rewrite (when_present_eq_str kv "category" _ _ Hcat). cbn [mbind option_bind].
  rewrite (limit_encoded kv f _ Hlim). cbn [mbind option_bind].
  rewrite !filter_filter_andb.
  rewrite (List.filter_ext _ (passes f)); [by destruct (reachable db)|].
  intros r. unfold passes. by rewrite !andb_assoc.
Qed.

(** Ordering *)

Lemma desc_leb_total (col : string) (a b : row) :
  desc_leb col a b = false -> desc_leb col b a = true.
Proof.
  unfold desc_leb.
  destruct (int_column col a), (int_column col b); try done.
  rewrite Z.leb_gt, Z.leb_le. lia.
Qed.

Lemma insert_desc_perm (col : string) (r : row) (l : list row) :
  insert_desc col r l ≡ₚ r :: l.
Proof.
  induction l as [|x l IH]; [done|]. cbn [insert_desc].
  destruct (desc_leb col x r); [done|].
  rewrite IH. apply Permutation_swap.
Qed.

Lemma q_order_desc_perm (col : string) (q : list row) : q_order_desc col q ≡ₚ q.
Proof.
  induction q as [|r q IH]; [done|]. cbn [q_order_desc foldr].
  fold (q_order_desc col q). by rewrite insert_desc_perm, IH.
Qed.

Lemma insert_desc_hd (r a : row) (l : list row) :
  score_desc a r -> HdRel score_desc a l -> HdRel score_desc a (insert_desc "score" r l).
Proof.
  intros Har Hl. destruct l as [|x l]; cbn [insert_desc]; [by constructor|].
  destruct (desc_leb "score" x r); constructor; [done|].
  by inversion Hl.
Qed.

Lemma insert_desc_sorted (r : row) (l : list row) :
  Sorted score_desc l -> Sorted score_desc (insert_desc "score" r l).
Proof.
  induction l as [|x l IH]; intros Hs; cbn [insert_desc].
  - by repeat constructor.
  - destruct (desc_leb "score" x r) eqn:Hx.
    + constructor; [done|]. by constructor.
    + inversion Hs as [|? ? Hl Hhd]; subst. constructor; [by apply IH|].
      apply insert_desc_hd; [|done]. by apply desc_leb_total.
Qed.

Lemma q_order_desc_sorted (q : list row) : Sorted score_desc (q_order_desc "score" q).
Proof.
  induction q as [|r q IH]; [constructor|]. by apply insert_desc_sorted.
Qed.

Lemma sorted_take {A} (R : A -> A -> Prop) (n : nat) (l : list A) :
  Sorted R l -> Sorted R (take n l).
Proof.
  revert n. induction l as [|x l IH]; intros [|n] Hs; cbn [take]; try constructor.
  - apply IH. by inversion Hs.
  - inversion Hs as [|? ? _ Hhd]; subst.
    destruct l as [|y l], n as [|n]; cbn [take]; constructor. by inversion Hhd.
Qed.

(** C7. A query whose filters are typed as documented returns the count
    and the records of the first [limit] rows (100 without a limit) of
    the rows that pass the filters, ordered by score, larger first:
    is_active and category match exactly, min_score and max_score bound
    the score inclusively. Over a store of three active records with
    scores 90, 75 and 60 and an inactive one with score 95, in whatever
    order they were inserted, the filters is_active true, min_score 70,
    limit 50 return the two records with scores 90 and 75, in this
    order. *)
Theorem query_filters_order_limit :
  (forall (db : store) (kv : list (string * json)) (f : filters),
     reachable db = true ->
     encodes kv f ->
     exists ordered : list row,
       ordered ≡ₚ List.filter (passes f) (trading_universe db)
       /\ Sorted score_desc ordered
       /\ _get_trading_universe (Some db) (Some (JObj kv))
          = Stocks (length (take (limit_of f) ordered)) (take (limit_of f) ordered)
       /\ (length (take (limit_of f) ordered) <= limit_of f)%nat
       /\ Sorted score_desc (take (limit_of f) ordered)
       /\ (forall r, In r (take (limit_of f) ordered) ->
             In r (trading_universe db) /\ passes f r = true))
  /\ (forall t : list row,
        t ≡ₚ example_universe ->
        _get_trading_universe (Some {| reachable := true; trading_universe := t |})
          (Some (JObj example_filters))
        = Stocks 2 [stock "AAA" true 90; stock "BBB" true 75]).
Proof.
  split.
  - intros db kv f Hreach Henc.
    exists (q_order_desc "score" (List.filter (passes f) (trading_universe db))).
    split; [apply q_order_desc_perm|].
    split; [apply q_order_desc_sorted|].
    split; [by rewrite (get_trading_universe_run db kv f Henc), Hreach|].
    split; [rewrite length_take; lia|].
    split; [apply sorted_take, q_order_desc_sorted|].
    intros r Hr.
    assert (Hin : In r (List.filter (passes f) (trading_universe db))).
    { apply list_elem_of_In. rewrite <- (q_order_desc_perm "score").
      apply list_elem_of_In. apply list_elem_of_In in Hr.
      apply list_elem_of_In. by apply (subseteq_take (limit_of f)). }
    by apply List.filter_In in Hin.
  - intros t Ht.
    rewrite (get_trading_universe_run _ example_filters example_query)
      by (repeat split; reflexivity).
    cbn [reachable trading_universe].
    assert (Hf : [stock "AAA" true 90; stock "BBB" true 75]
                 ≡ₚ List.filter (passes example_query) t).
    { rewrite (filter_permutation _ _ _ Ht). by vm_compute. }
    apply Permutation_length_2_inv in Hf as [-> | ->]; vm_compute; reflexivity.
Qed.

Lemma query_filters_order_limit_witness :
  let db := {| reachable := true; trading_universe := example_universe |} in
  let f := example_query in
  exists ordered : list row,
    ordered ≡ₚ List.filter (passes f) (trading_universe db)
    /\ Sorted score_desc ordered
    /\ _get_trading_universe (Some db) (Some (JObj example_filters))
       = Stocks (length (take (limit_of f) ordered)) (take (limit_of f) ordered)
    /\ (length (take (limit_of f) ordered) <= limit_of f)%nat
    /\ Sorted score_desc (take (limit_of f) ordered)
    /\ (forall r, In r (take (limit_of f) ordered) ->
          In r (trading_universe db) /\ passes f r = true).
Proof.
  intros db f.
  apply (proj1 query_filters_order_limit db example_filters f).
  - reflexivity.
  - repeat split; reflexivity.
Defined.

(** ** Further properties of the scanner *)

(** X1. Whatever the validator does, and whatever the world answers, the
    scan returns a value and never raises; the value, result or error,
    carries the ticker in upper case and without surrounding white
    space. *)
Theorem scan_always_returns (v : validator) (w : world) (ticker : string) :
  exists out tr,
    run (scan_with v w ticker) = (Ret out, tr)
    /\ out_ticker out = Py.strip (Py.upper ticker).
Proof.
  rewrite scan_with_run. cbn zeta. fold (normalize ticker).
  destruct (key_missing (finnhub_api_key w)); [by eexists _, _|].
  destruct (in_band _); [|by eexists _, _].
  unfold validated. destruct (v _ _); by eexists _, _.
Qed.

(** X2. Without a credential (the variable is unset or empty) the scan
    returns the error result with the text "FINNHUB_API_KEY not set", and
    sends no request: reading the variable is all it does. *)
Theorem missing_credential_sends_no_request (v : validator) (w : world) (ticker : string) :
  key_missing (finnhub_api_key w) = true ->
  run (scan_with v w ticker)
  = (Ret (ScanError (Py.strip (Py.upper ticker)) "FINNHUB_API_KEY not set"), [Getenv])
  /\ requests (trace_of (scan_with v w ticker)) = [].
Proof.
  intros Hkey. unfold trace_of. rewrite scan_with_run. cbn zeta. by rewrite Hkey.
Qed.

Lemma missing_credential_sends_no_request_witness :
  run (scan_with failing_validator
         (world_of (Some "") (Some (JObj [("description", JStr "GPT")])) None) "nvda")
  = (Ret (ScanError "NVDA" "FINNHUB_API_KEY not set"), [Getenv])
  /\ requests (trace_of (scan_with failing_validator
         (world_of (Some "") (Some (JObj [("description", JStr "GPT")])) None) "nvda")) = [].
Proof.
  apply (missing_credential_sends_no_request failing_validator
           (world_of (Some "") (Some (JObj [("description", JStr "GPT")])) None) "nvda").
  reflexivity.
Defined.

Lemma requests_fetch_trace (w : world) (t : string) :
  requests (fetch_trace w t) = [HttpGet Profile; HttpGet News].
Proof.
  unfold fetch_trace, requests.
  destruct (excepted _); destruct (excepted _); reflexivity.
Qed.

Lemma requests_app (tr tr' : list event) :
  requests (tr ++ tr') = requests tr ++ requests tr'.
Proof. apply List.filter_app. Qed.

(** X3. With a credential the scan sends exactly two requests, the
    profile request and then the news request, whatever the first one
    answers; a request that raises is followed by its warning, and the
    scan goes on. *)
Theorem credentialed_scan_sends_two_requests (v : validator) (w : world) (ticker : string) :
  key_missing (finnhub_api_key w) = false ->
  requests (trace_of (scan_with v w ticker)) = [HttpGet Profile; HttpGet News]
  /\ (profile_reply w = None -> In (Warning Profile) (trace_of (scan_with v w ticker)))
  /\ (news_reply w = None -> In (Warning News) (trace_of (scan_with v w ticker))).
Proof.
  intros Hkey. unfold trace_of. rewrite scan_with_run. cbn zeta. rewrite Hkey.
  assert (Hp : profile_reply w = None ->
               In (Warning Profile) (fetch_trace w (normalize ticker))).
  { intros H. unfold fetch_trace. rewrite H. cbn. tauto. }
  assert (Hn : news_reply w = None ->
               In (Warning News) (fetch_trace w (normalize ticker))).
  { intros H. unfold fetch_trace. rewrite H. cbn [news_block excepted].
    rewrite !in_app_iff. cbn. tauto. }
  destruct (in_band _); cbn [snd].
  - rewrite requests_app, requests_fetch_trace. split; [done|].
    split; intros H; apply in_or_app; left; auto.
  - rewrite requests_fetch_trace. auto.
Qed.

Lemma credentialed_scan_sends_two_requests_witness :
  requests (trace_of (scan_with failing_validator silent_world "nvda"))
  = [HttpGet Profile; HttpGet News]
  /\ (profile_reply silent_world = None ->
      In (Warning Profile) (trace_of (scan_with failing_validator silent_world "nvda")))
  /\ (news_reply silent_world = None ->
      In (Warning News) (trace_of (scan_with failing_validator silent_world "nvda"))).
Proof.
  apply (credentialed_scan_sends_two_requests failing_validator silent_world "nvda").
  reflexivity.
Defined.

(** X4. With a credential, the scan as wired returns the keyword-stage
    result itself when the score is outside [30, 70]; inside, it returns
    that result with the same ticker, name, sector, flag, score and
    category, and with the text " | LLM: LLM validation not implemented
    yet - using keyword scoring" appended to the evidence. *)
Theorem borderline_scan_only_extends_evidence (w : world) (ticker : string) :
  key_missing (finnhub_api_key w) = false ->
  exists r,
    returned (_keyword_scoring w (Py.strip (Py.upper ticker))) = Ret r
    /\ returned (_scan_stock_for_ai w ticker)
       = Ret (ScanResult (if (30 <=? r_score r) && (r_score r <=? 70)
                          then with_validation_note r else r)).
Proof.
  intros Hkey. unfold returned. rewrite scan_run. unfold run.
  rewrite keyword_scoring_run. cbn zeta. fold (normalize ticker). rewrite Hkey.
  eexists. split; [reflexivity|].
  fold (in_band (r_score (keyword_result (normalize ticker)
                            (keyword_locals w (normalize ticker))))).
  by destruct (in_band _).
Qed.

Lemma borderline_scan_only_extends_evidence_witness :
  exists r,
    returned (_keyword_scoring borderline_world (Py.strip (Py.upper "acme"))) = Ret r
    /\ returned (_scan_stock_for_ai borderline_world "acme")
       = Ret (ScanResult (if (30 <=? r_score r) && (r_score r <=? 70)
                          then with_validation_note r else r)).
Proof.
  apply (borderline_scan_only_extends_evidence borderline_world "acme"). reflexivity.
Defined.

Lemma news_block_take (l : list json) (st : scoring) :
  news_block (Some (JArr (take 10 l))) st = news_block (Some (JArr l)) st.
Proof. unfold news_block. by rewrite take_take. Qed.

(** X5. Only the first ten items of the news reply are read: a reply and
    its first ten items give the same scan, value and trace. *)
Theorem only_first_ten_articles_count (key : option string) (profile : option json)
    (news : list json) (ticker : string) :
  run (_scan_stock_for_ai (world_of key profile (Some (JArr news))) ticker)
  = run (_scan_stock_for_ai (world_of key profile (Some (JArr (take 10 news)))) ticker).
Proof.
  rewrite !scan_run. cbn zeta.
  unfold keyword_locals, fetch_trace, world_of.
  cbn [finnhub_api_key profile_reply news_reply].
  by rewrite !news_block_take.
Qed.

Lemma scan_articles_app_bad (good rest : list json) (bad : json) (st : scoring) :
  forallb readable good = true ->
  article_text bad = None ->
  scan_articles (good ++ bad :: rest) st = Excepted (locals_of (scan_articles good st)).
Proof.
  intros Hgood Hbad. revert st.
  induction good as [|a good IH]; intros st; cbn [app scan_articles].
  - by rewrite Hbad.
  - cbn [forallb] in Hgood. apply andb_true_iff in Hgood as [Ha Hgood].
    unfold readable in Ha. destruct (article_text a); [|done]. by apply IH.
Qed.

(** X6. An item of the news reply that cannot be read (it is no dict, or
    its headline or summary is no string) ends the article loop: the
    points and the evidence of the articles before it are kept, the
    articles after it are not read, and the block is left by its except
    clause. *)
Theorem unreadable_article_ends_news_loop (good rest : list json) (bad : json)
    (st : scoring) :
  forallb readable good = true ->
  article_text bad = None ->
  (length good < 10)%nat ->
  news_block (Some (JArr (good ++ bad :: rest))) st
  = Excepted (locals_of (news_block (Some (JArr good)) st)).
Proof.
  intros Hgood Hbad Hlen. unfold news_block.
  rewrite take_app_ge by lia.
  rewrite (take_ge good) by lia.
  destruct (10 - length good)%nat as [|n] eqn:Hn; [lia|].
  cbn [take]. by apply scan_articles_app_bad.
Qed.

Lemma unreadable_article_ends_news_loop_witness :
  news_block (Some (JArr ([article "LLM launch" ""] ++ JNull :: [article "TPU" ""])))
    (initial_locals "ACME")
  = Excepted (locals_of (news_block (Some (JArr [article "LLM launch" ""]))
                           (initial_locals "ACME"))).
Proof.
  apply (unreadable_article_ends_news_loop [article "LLM launch" ""]
           [article "TPU" ""] JNull (initial_locals "ACME")).
  - reflexivity.
  - reflexivity.
  - cbn. lia.
Defined.

(** ** Case and white space *)

Lemma lower_upper_char (c : ascii) : Py.lower_char (Py.upper_char c) = Py.lower_char c.
Proof. by destruct c as [[] [] [] [] [] [] [] []]. Qed.

Lemma upper_upper_char (c : ascii) : Py.upper_char (Py.upper_char c) = Py.upper_char c.
Proof. by destruct c as [[] [] [] [] [] [] [] []]. Qed.

Lemma is_space_upper_char (c : ascii) : Py.is_space (Py.upper_char c) = Py.is_space c.
Proof. by destruct c as [[] [] [] [] [] [] [] []]. Qed.

Lemma lower_upper (s : string) : Py.lower (Py.upper s) = Py.lower s.
Proof.
  unfold Py.lower, Py.upper. induction s as [|c s IH]; [done|].
  cbn [Py.str_map]. by rewrite lower_upper_char, IH.
Qed.

Lemma upper_upper (s : string) : Py.upper (Py.upper s) = Py.upper s.
Proof.
  unfold Py.upper. induction s as [|c s IH]; [done|].
  cbn [Py.str_map]. by rewrite upper_upper_char, IH.
Qed.

Lemma upper_lstrip (s : string) : Py.upper (Py.lstrip s) = Py.lstrip (Py.upper s).
Proof.
  unfold Py.upper. induction s as [|c s IH]; [done|].
  cbn [Py.str_map Py.lstrip]. rewrite is_space_upper_char.
  by destruct (Py.is_space c).
Qed.

Lemma upper_rstrip (s : string) : Py.upper (Py.rstrip s) = Py.rstrip (Py.upper s).
Proof.
  unfold Py.upper. induction s as [|c s IH]; [done|].
  cbn [Py.str_map Py.rstrip]. rewrite <- IH, is_space_upper_char.
  destruct (Py.rstrip s); cbn [Py.str_map]; [|done].
  by destruct (Py.is_space c).
Qed.

Lemma rstrip_rstrip (s : string) : Py.rstrip (Py.rstrip s) = Py.rstrip s.
Proof.
  induction s as [|c s IH]; [done|]. cbn [Py.rstrip].
  destruct (Py.rstrip s) as [|c' r] eqn:Hr.
  - destruct (Py.is_space c) eqn:Hc; [done|]. cbn [Py.rstrip]. by rewrite Hc.
  - cbn [Py.rstrip] in IH |- *. by rewrite IH.
Qed.

(** A string that does not start with white space. *)
Lemma lstrip_fixed (s : string) :
  Py.lstrip s = s <-> match s with
                      | EmptyString => True
                      | String c _ => Py.is_space c = false
                      end.
Proof.
  destruct s as [|c s]; [done|]. cbn [Py.lstrip].
  destruct (Py.is_space c) eqn:Hc; [|done]. split; [|done].
  intros H. assert (Hl : forall r, (String.length (Py.lstrip r) <= String.length r)%nat).
  { clear. induction r as [|a r IH]; cbn [Py.lstrip]; [done|].
    destruct (Py.is_space a); cbn [String.length] in *; lia. }
  specialize (Hl s). rewrite H in Hl. cbn [String.length] in Hl. lia.
Qed.

Lemma lstrip_lstrip (s : string) : Py.lstrip (Py.lstrip s) = Py.lstrip s.
Proof.
  induction s as [|c s IH]; [done|]. cbn [Py.lstrip].
  destruct (Py.is_space c) eqn:Hc; [done|]. cbn [Py.lstrip]. by rewrite Hc.
Qed.

Lemma lstrip_rstrip (s : string) :
  Py.lstrip s = s -> Py.lstrip (Py.rstrip s) = Py.rstrip s.
Proof.
  rewrite !lstrip_fixed. destruct s as [|c s]; [done|]. intros Hc.
  cbn [Py.rstrip]. destruct (Py.rstrip s); [by rewrite Hc|done].
Qed.

Lemma strip_strip (s : string) : Py.strip (Py.strip s) = Py.strip s.
Proof.
  unfold Py.strip.
  rewrite (lstrip_rstrip (Py.lstrip s)) by apply lstrip_lstrip.
  apply rstrip_rstrip.
Qed.

Lemma upper_strip (s : string) : Py.upper (Py.strip s) = Py.strip (Py.upper s).
Proof. unfold Py.strip. by rewrite upper_rstrip, upper_lstrip. Qed.

Lemma normalize_normalize (ticker : string) :
  normalize (normalize ticker) = normalize ticker.
Proof.
  unfold normalize. by rewrite upper_strip, upper_upper, strip_strip.
Qed.

(** X7. On ASCII text keyword matching ignores case: a description, or
    a headline and a summary, of ASCII characters written in upper case
    leaves the profile block and the text of the article as they are with
    the original letters. *)
Theorem keyword_matching_ignores_case :
  (forall (ticker d : string) (rest : list (string * json)) (st : scoring),
     ascii_text d = true ->
     profile_block ticker (Some (JObj (("description", JStr (Py.upper d)) :: rest))) st
     = profile_block ticker (Some (JObj (("description", JStr d) :: rest))) st)
  /\ (forall headline summary : string,
        ascii_text headline = true ->
        ascii_text summary = true ->
        article_text (JObj [("headline", JStr (Py.upper headline));
                            ("summary", JStr (Py.upper summary))])
        = article_text (JObj [("headline", JStr headline); ("summary", JStr summary)])).
Proof.
  split.
  - intros ticker d rest st _. unfold profile_block, dict_get.
    cbn [truthy dict_find String.eqb Ascii.eqb Bool.eqb].
    by rewrite lower_upper.
  - intros headline summary _ _. unfold article_text, dict_get.
    cbn [dict_find String.eqb Ascii.eqb Bool.eqb].
    by rewrite !lower_upper.
Qed.

Lemma keyword_matching_ignores_case_witness :
  profile_block "ACME"
    (Some (JObj [("description", JStr (Py.upper "We build GPT tools"))]))
    (initial_locals "ACME")
  = profile_block "ACME" (Some (JObj [("description", JStr "We build GPT tools")]))
      (initial_locals "ACME")
  /\ article_text (JObj [("headline", JStr (Py.upper "New llm"));
                         ("summary", JStr (Py.upper "for nlp"))])
     = article_text (JObj [("headline", JStr "New llm"); ("summary", JStr "for nlp")]).
Proof.
  split.
  - apply (proj1 keyword_matching_ignores_case "ACME" "We build GPT tools" []
             (initial_locals "ACME")).
    reflexivity.
  - apply (proj2 keyword_matching_ignores_case "New llm" "for nlp"); reflexivity.
Defined.

(** X8. Normalising a ticker twice is normalising it once, so the
    scanner treats a ticker and its normalised form alike, and so does
    the upsert once the data is parsed; when the data cannot be parsed
    the upsert stops before it normalises, and its message names the
    ticker as it was passed. *)
Theorem ticker_normalisation_idempotent (ticker : string) :
  Py.strip (Py.upper (Py.strip (Py.upper ticker))) = Py.strip (Py.upper ticker)
  /\ (forall (v : validator) (w : world),
        run (scan_with v w (Py.strip (Py.upper ticker))) = run (scan_with v w ticker))
  /\ (forall (int_of_str : string -> option Z) (clock : nat -> string)
             (supabase : option store) (data : json),
        _update_trading_universe int_of_str clock supabase
          (Py.strip (Py.upper ticker)) (Some data)
        = _update_trading_universe int_of_str clock supabase ticker (Some data))
  /\ (forall (int_of_str : string -> option Z) (clock : nat -> string) (db : store),
        _update_trading_universe int_of_str clock (Some db) ticker None
        = (UpdateError ticker, Some db)).
Proof.
  pose proof (normalize_normalize ticker) as H. unfold normalize in H.
  split; [exact H|]. split; [|split].
  - intros v w. rewrite !scan_with_run. cbn zeta. unfold normalize. by rewrite H.
  - intros int_of_str clock supabase data.
    unfold _update_trading_universe. by rewrite H.
  - reflexivity.
Qed.

(** ** Name and sector *)

Lemma score_each_names (keywords : list string) (p : Z) (d : string) (st : scoring) :
  names (score_each keywords p d st) = names st.
Proof.
  revert st. induction keywords as [|k rest IH]; intros st; cbn [score_each]; [done|].
  rewrite IH. by destruct (Py.contains k d).
Qed.

Lemma score_article_names (text : string) (st : scoring) :
  names (score_article text st) = names st.
Proof.
  unfold score_article.
  by destruct (first_hit tier1_keywords text), (first_hit tier2_keywords text).
Qed.

Lemma scan_articles_names (articles : list json) (st : scoring) :
  names (locals_of (scan_articles articles st)) = names st.
Proof.
  revert st. induction articles as [|a rest IH]; intros st; cbn [scan_articles]; [done|].
  destruct (article_text a); [|done]. by rewrite IH, score_article_names.
Qed.

Lemma news_block_names (reply : option json) (st : scoring) :
  names (locals_of (news_block reply st)) = names st.
Proof.
  unfold news_block. destruct reply as [[| | |s| | |]|]; try done.
  - by destruct (s =? "")%string.
  - apply scan_articles_names.
Qed.

Lemma profile_block_names (t : string) (reply : option json) (st : scoring) :
  names (locals_of (profile_block t reply st))
  = match reply with
    | Some (JObj (f :: kv)) =>
        (dict_get (f :: kv) "name" (JStr t), dict_get (f :: kv) "finnhubIndustry" JNull)
    | _ => names st
    end.
Proof.
  unfold profile_block. destruct reply as [v|]; [|done].
  destruct v as [|b|n|s|l|kv|x].
  1-5, 7: by destruct (truthy _).
  destruct kv as [|f kv]; [done|]. cbn [truthy].
  destruct (dict_get (f :: kv) "description" (JStr "")); cbn [locals_of]; try done.
  unfold score_description. by rewrite !score_each_names.
Qed.

(** X9. The name and the sector of a keyword-stage result are the name
    and finnhubIndustry fields of the profile whenever the profile reply
    is a non-empty dict, with the ticker and null for a missing field,
    also when its description is no text and the block is left by its
    except clause; for any other reply, or none, they are the ticker and
    null. The news never changes them. *)
Theorem name_and_sector_come_from_profile (w : world) (ticker : string) :
  key_missing (finnhub_api_key w) = false ->
  exists r,
    returned (_keyword_scoring w ticker) = Ret r
    /\ r_ticker r = ticker
    /\ (r_company_name r, r_sector r)
       = match profile_reply w with
         | Some (JObj (f :: kv)) =>
             (dict_get (f :: kv) "name" (JStr ticker),
              dict_get (f :: kv) "finnhubIndustry" JNull)
         | _ => (JStr ticker, JNull)
         end.
Proof.
  intros Hkey. unfold returned, run. rewrite keyword_scoring_run, Hkey. cbn [fst].
  eexists. split; [reflexivity|]. split; [reflexivity|].
  change (names (keyword_locals w ticker) = match profile_reply w with
    | Some (JObj (f :: kv)) =>
        (dict_get (f :: kv) "name" (JStr ticker),
         dict_get (f :: kv) "finnhubIndustry" JNull)
    | _ => (JStr ticker, JNull)
    end).
  unfold keyword_locals. by rewrite news_block_names, profile_block_names.
Qed.

Lemma name_and_sector_come_from_profile_witness :
  let w := world_of (Some "key")
             (Some (JObj [("name", JStr "Acme"); ("description", JNull)]))
             (Some (JArr [article "LLM launch" ""])) in
  exists r,
    returned (_keyword_scoring w "ACME") = Ret r
    /\ r_ticker r = "ACME"
    /\ (r_company_name r, r_sector r) = (JStr "Acme", JNull).
Proof.
  intros w. apply (name_and_sector_come_from_profile w "ACME"). reflexivity.
Defined.

(** ** Evidence and category *)

(** X10. The evidence text of a keyword-stage result joins the first
    five notes only, while the category is decided on all the notes: a
    sixth note can decide a category that the evidence text does not
    show. *)
Theorem evidence_keeps_five_notes_category_reads_all (w : world) (ticker : string) :
  key_missing (finnhub_api_key w) = false ->
  exists r,
    returned (_keyword_scoring w ticker) = Ret r
    /\ r_evidence r = Py.join " | " (take 5 (notes_of w))
    /\ r_category r = _categorize_stock (notes_of w).
Proof.
  intros Hkey. unfold returned, run. rewrite keyword_scoring_run, Hkey. cbn [fst].
  eexists. split; [reflexivity|].
  by rewrite keyword_result_evidence, keyword_result_category, keyword_locals_evidence.
Qed.

Lemma evidence_keeps_five_notes_category_reads_all_witness :
  exists r,
    returned (_keyword_scoring six_keyword_world "ACME") = Ret r
    /\ r_evidence r = Py.join " | " (take 5 (notes_of six_keyword_world))
    /\ r_category r = _categorize_stock (notes_of six_keyword_world)
    /\ length (notes_of six_keyword_world) = 6%nat
    /\ _categorize_stock (notes_of six_keyword_world) = "ai_chip"
    /\ _categorize_stock (take 5 (notes_of six_keyword_world)) = "ai_beneficiary".
Proof.
  destruct (evidence_keeps_five_notes_category_reads_all six_keyword_world "ACME" eq_refl)
    as (r & Hr & He & Hc).
  exists r. repeat split; try assumption; vm_compute; reflexivity.
Defined.

(** ** The categories a scan can return *)

Lemma prefix_take (p y : string) (k : nat) :
  (Stdlib.Strings.String.length p <= k)%nat ->
  Stdlib.Strings.String.prefix p y = true ->
  Stdlib.Strings.String.prefix p (str_take k y) = true.
Proof.
  revert y k. induction p as [|a p IH]; intros y k Hk H;
    [by destruct (str_take k y)|].
  destruct y as [|b y]; [by cbn in H|]. destruct k as [|k]; [cbn in Hk; lia|].
  cbn [Stdlib.Strings.String.prefix str_take] in H |- *.
  destruct (Ascii.ascii_dec a b); [|done]. apply IH; [cbn in Hk; lia|done].
Qed.

Lemma append_cons (c : ascii) (a b : string) : String c a +:+ b = String c (a +:+ b).
Proof. reflexivity. Qed.

Lemma prefix_app_take (p u y : string) (k : nat) :
  (Stdlib.Strings.String.length p <= Stdlib.Strings.String.length u + k)%nat ->
  Stdlib.Strings.String.prefix p (u +:+ y) = true ->
  Stdlib.Strings.String.prefix p (u +:+ str_take k y) = true.
Proof.
  revert p. induction u as [|b u IH]; intros p Hk H.
  - by apply prefix_take.
  - destruct p as [|a p]; [reflexivity|].
    rewrite append_cons in H |- *. cbn [Stdlib.Strings.String.prefix] in H |- *.
    destruct (Ascii.ascii_dec a b); [|done]. apply IH; [cbn in Hk; lia|done].
Qed.

(** An occurrence in [x +:+ y] that starts in [x] ends within the first
    characters of [y]. *)
Lemma contains_app_window (p x y : string) :
  Py.contains p (x +:+ y) = true ->
  Py.contains p (x +:+ str_take (Stdlib.Strings.String.length p - 1) y) = true
  \/ Py.contains p y = true.
Proof.
  induction x as [|c x IH]; [by right|].
  rewrite !append_cons. cbn [Py.contains]. intros H.
  apply orb_true_iff in H as [H|H].
  - left. apply orb_true_iff. left. rewrite <- append_cons in H |- *.
    apply prefix_app_take; [cbn; lia|done].
  - destruct (IH H) as [H'|H']; [left|by right].
    apply orb_true_iff. by right.
Qed.

Lemma str_take_app (k : nat) (a b : string) :
  (k <= Stdlib.Strings.String.length a)%nat ->
  str_take k (a +:+ b) = str_take k a.
Proof.
  revert a. induction k as [|k IH]; intros a Hk; [by destruct a|].
  destruct a as [|c a]; [cbn in Hk; lia|].
  rewrite append_cons. cbn [str_take]. rewrite IH; [done|cbn in Hk; lia].
Qed.

Lemma append_assoc (a b c : string) : (a +:+ b) +:+ c = a +:+ (b +:+ c).
Proof. induction a as [|x a IH]; [done|]. by rewrite !append_cons, IH. Qed.

Lemma append_empty_r (a : string) : a +:+ "" = a.
Proof. induction a as [|x a IH]; [done|]. by rewrite !append_cons, IH. Qed.

Lemma join_cons_form (sep n : string) (rest : list string) :
  exists tail, Py.join sep (n :: rest) = n +:+ tail.
Proof.
  destruct rest as [|n' rest].
  - exists "". by rewrite append_empty_r.
  - by eexists.
Qed.

(** A keyword that is absent from the notes is absent from every text
    that joins notes with blanks. *)
Lemma absent_from_joined_notes (p : string) (ev : list string) :
  absent_from_notes p = true ->
  Forall (fun n => In n (Py.lower <$> all_notes)) ev ->
  Py.contains p (Py.join " " ev) = false.
Proof.
  unfold absent_from_notes. cbn zeta.
  rewrite !andb_true_iff, !negb_true_iff, !forallb_forall.
  intros [[[Hsp Hnil] Hone] Htwo].
  induction ev as [|n [|n2 rest] IH]; intros Hev.
  - exact Hnil.
  - inversion Hev as [|? ? Hn _]; subst. specialize (Hone n Hn).
    by apply negb_true_iff in Hone.
  - inversion Hev as [|? ? Hn Hrest]; subst.
    inversion Hrest as [|? ? Hn2 _]; subst.
    specialize (IH Hrest).
    destruct (join_cons_form " " n2 rest) as [tail Htail].
    change (Py.join " " (n :: n2 :: rest))
      with (n +:+ (" " +:+ Py.join " " (n2 :: rest))).
    destruct (Py.contains p (n +:+ (" " +:+ Py.join " " (n2 :: rest)))) eqn:Hc; [|done].
    exfalso. apply contains_app_window in Hc as [Hc|Hc].
    + specialize (Htwo n Hn). rewrite forallb_forall in Htwo.
      specialize (Htwo n2 Hn2).
      apply andb_true_iff in Htwo as [Hk Hw].
      apply Nat.leb_le in Hk. apply negb_true_iff in Hw.
      rewrite Htail, <- append_assoc, str_take_app in Hc by done.
      congruence.
    + change (" " +:+ Py.join " " (n2 :: rest))
        with (String " " (Py.join " " (n2 :: rest))) in Hc.
      cbn [Py.contains] in Hc. apply orb_true_iff in Hc as [Hc|Hc]; [|congruence].
      destruct p as [|a p]; [by cbn in Hnil|].
      cbn [Stdlib.Strings.String.prefix] in Hc, Hsp.
      destruct (Ascii.ascii_dec a " ") as [->|]; [|done].
      by destruct p.
Qed.

Lemma lower_append (a b : string) : Py.lower (a +:+ b) = Py.lower a +:+ Py.lower b.
Proof.
  unfold Py.lower. induction a as [|x a IH]; [done|].
  rewrite append_cons. cbn [Py.str_map]. by rewrite append_cons, IH.
Qed.

Lemma lower_join_blank (l : list string) :
  Py.lower (Py.join " " l) = Py.join " " (Py.lower <$> l).
Proof.
  induction l as [|n [|n2 rest] IH]; [done..|].
  change (Py.join " " (n :: n2 :: rest)) with (n +:+ (" " +:+ Py.join " " (n2 :: rest))).
  rewrite !lower_append, IH. reflexivity.
Qed.

Lemma hits_subset (keywords : list string) (text k : string) :
  In k (hits keywords text) -> In k keywords.
Proof. unfold hits. rewrite List.filter_In. tauto. Qed.

Lemma first_hit_in (keywords : list string) (text k : string) :
  first_hit keywords text = Some k -> In k keywords.
Proof.
  induction keywords as [|k' rest IH]; [done|]. cbn [first_hit].
  destruct (Py.contains k' text); [intros [= ->]; by left|].
  intros H. right. by apply IH.
Qed.

Lemma profile_notes_known (reply : option json) :
  Forall (fun n => In n all_notes) (profile_notes reply).
Proof.
  unfold profile_notes. destruct (scanned_description reply) as [d|]; [|constructor].
  apply List.Forall_forall. intros n Hn.
  apply list_elem_of_In, list_elem_of_fmap in Hn as (k & -> & Hk).
  apply list_elem_of_In in Hk.
  unfold all_notes. apply in_or_app. left.
  apply list_elem_of_In, list_elem_of_fmap. exists k. split; [done|].
  apply list_elem_of_In, in_or_app.
  apply in_app_or in Hk as [Hk|Hk]; [left|right]; by eapply hits_subset.
Qed.

Lemma news_notes_known (texts : list string) :
  Forall (fun n => In n all_notes) (news_notes texts).
Proof.
  induction texts as [|t rest IH]; [constructor|].
  rewrite news_notes_cons. apply Forall_app. split; [|done].
  unfold news_notes. cbn [omap list_omap].
  destruct (first_hit tier1_keywords t) as [k|] eqn:Hk;
    cbn [fmap option_fmap option_map]; [|constructor].
  constructor; [|constructor].
  unfold all_notes. apply in_or_app. right.
  apply list_elem_of_In, list_elem_of_fmap. exists k. split; [done|].
  apply list_elem_of_In. by eapply first_hit_in.
Qed.

Lemma first_hit_none (keywords : list string) (text : string) :
  (forall k, In k keywords -> Py.contains k text = false) ->
  first_hit keywords text = None.
Proof.
  induction keywords as [|k rest IH]; intros H; [done|]. cbn [first_hit].
  rewrite (H k) by (by left). apply IH. intros k' Hk'. apply H. by right.
Qed.

Lemma categorize_known_notes (ev : list string) :
  Forall (fun n => In n all_notes) ev ->
  In (_categorize_stock ev) ["ai_chip"; "ai_software"; "ai_beneficiary"].
Proof.
  intros Hev. unfold _categorize_stock, tier1_categories. cbn [first_category].
  rewrite lower_join_blank.
  assert (Hlow : Forall (fun n => In n (Py.lower <$> all_notes)) (Py.lower <$> ev)).
  { apply List.Forall_forall. intros n Hn.
    apply list_elem_of_In, list_elem_of_fmap in Hn as (m & -> & Hm).
    apply list_elem_of_In, list_elem_of_fmap. exists m. split; [done|].
    apply list_elem_of_In. rewrite List.Forall_forall in Hev.
    by apply Hev, list_elem_of_In. }
  destruct (first_hit _ _); [cbn; tauto|].
  destruct (first_hit _ _); [cbn; tauto|].
  rewrite first_hit_none; [cbn; tauto|].
  intros k Hk. apply absent_from_joined_notes; [|done].
  cbn in Hk. destruct Hk as [<-|[<-|[<-|[<-|[]]]]]; by vm_compute.
Qed.

(** X11. No scan returns the category ai_cloud: the notes the two loops
    can write, joined by blanks, hold none of its four keywords, and
    "gpu cloud" would be taken for a chip. The category of a result is
    ai_chip, ai_software or ai_beneficiary; only the error result of a
    scan without credential has none. *)
Theorem category_is_never_ai_cloud (w : world) (ticker : string) :
  exists out tr,
    run (_scan_stock_for_ai w ticker) = (Ret out, tr)
    /\ match out_category out with
       | Some c => In c ["ai_chip"; "ai_software"; "ai_beneficiary"]
       | None => key_missing (finnhub_api_key w) = true
       end.
Proof.
  rewrite scan_run. cbn zeta.
  destruct (key_missing (finnhub_api_key w)); [by eexists _, _|].
  assert (Hc : In (r_category (keyword_result (normalize ticker)
                                 (keyword_locals w (normalize ticker))))
                  ["ai_chip"; "ai_software"; "ai_beneficiary"]).
  { rewrite keyword_result_category, keyword_locals_evidence.
    apply categorize_known_notes, Forall_app.
    split; [apply profile_notes_known|apply news_notes_known]. }
  destruct (in_band _); eexists _, _; (split; [reflexivity|]); exact Hc.
Qed.

(** ** Further properties of the universe store *)


Lemma table_find_upsert_other (payload : row) (t other : string) (tbl : list row) :
  row_ticker payload = Some t ->
  other <> t ->
  table_find other (table_upsert payload tbl) = table_find other tbl.
Proof.
  intros Hp Hne. induction tbl as [|r rest IH].
  - cbn [table_upsert table_find]. rewrite Hp. by rewrite decide_False by congruence.
  - cbn [table_upsert]. rewrite Hp.
    destruct (decide (row_ticker r = Some t)) as [Hr|Hr]; cbn [table_find].
    + rewrite (row_ticker_union payload r t Hp), Hr.
      by rewrite !decide_False by congruence.
    + by rewrite IH.
Qed.



Lemma update_run (int_of_str : string -> option Z) (clock : nat -> string)
    (db : store) (ticker : string) (kv : list (string * json)) :
  _update_trading_universe int_of_str clock (Some db) ticker (Some (JObj kv))
  = match upsert_data int_of_str clock (normalize ticker) (JObj kv) with
    | Some payload =>
        if reachable db
        then (Updated (normalize ticker),
              Some {| reachable := true;
                      trading_universe := table_upsert payload (trading_universe db) |})
        else (UpdateError (normalize ticker), Some db)
    | None => (UpdateError (normalize ticker), Some db)
    end.
Proof. reflexivity. Qed.

(** X12. An update either reports success, and then the store was
    reached, or it reports the error and writes nothing: when the data is
    no parsable JSON object, when a field has a type the tool cannot
    convert, or when the request does not reach the store, the store
    stays as it was. The error names the ticker as it was passed when the
    data cannot be parsed, and the normalised ticker otherwise. *)
Theorem failed_update_writes_nothing (int_of_str : string -> option Z)
    (clock : nat -> string) (db : store) (ticker : string) (data_json : option json) :
  (reachable db = true
   /\ exists db',
        _update_trading_universe int_of_str clock (Some db) ticker data_json
        = (Updated (Py.strip (Py.upper ticker)), Some db'))
  \/ _update_trading_universe int_of_str clock (Some db) ticker data_json
     = (UpdateError (match data_json with
                     | Some _ => Py.strip (Py.upper ticker)
                     | None => ticker
                     end), Some db).
Proof.
  unfold _update_trading_universe.
  destruct data_json as [data|]; [|by right].
  destruct (upsert_data _ _ _ data) as [payload|]; [|by right].
  destruct (reachable db); [left|by right]. split; [done|]. by eexists.
Qed.

(** X13. An update with a JSON object succeeds exactly when the store
    is reached and the score, if the object has one, is an integer, a
    boolean or a finite float. A score written as text fails even when
    int() can read it, since the later comparison of the text with 0
    raises; so do a null score and a float that is infinite or no
    number. *)
Theorem update_succeeds_iff_score_typed (int_of_str : string -> option Z)
    (clock : nat -> string) (db : store) (ticker : string) (kv : list (string * json)) :
  (exists db',
     _update_trading_universe int_of_str clock (Some db) ticker (Some (JObj kv))
     = (Updated (Py.strip (Py.upper ticker)), Some db'))
  <-> reachable db = true
      /\ match dict_find kv "score" with
         | None => True
         | Some (JNum _) | Some (JBool _) | Some (JFloat (Finite _)) => True
         | Some _ => False
         end.
Proof.
  assert (Hc : match dict_find kv "score" with
               | None => True
               | Some (JNum _) | Some (JBool _) | Some (JFloat (Finite _)) => True
               | Some _ => False
               end <-> score_convertible kv = true).
  { unfold score_convertible.
    by destruct (dict_find kv "score") as [[| | | | | |[]]|]. }
  rewrite Hc, update_run. fold (normalize ticker). split.
  - intros [db' H]. destruct (score_convertible kv) eqn:Ht.
    + destruct (upsert_data _ _ _ _); [|done]. by destruct (reachable db).
    + by rewrite (upsert_data_none int_of_str clock _ kv Ht) in H.
  - intros [Hr Ht].
    destruct (upsert_data_convertible int_of_str clock (normalize ticker) kv Ht) as [p ->].
    rewrite Hr. by eexists.
Qed.



(** X15. A successful update touches the row of its ticker only: the row
    of any other ticker is found as before. *)
Theorem update_leaves_other_tickers (int_of_str : string -> option Z)
    (clock : nat -> string) (db db' : store) (ticker other : string)
    (data_json : option json) :
  _update_trading_universe int_of_str clock (Some db) ticker data_json
  = (Updated (Py.strip (Py.upper ticker)), Some db') ->
  other <> Py.strip (Py.upper ticker) ->
  table_find other (trading_universe db') = table_find other (trading_universe db).
Proof.
  unfold _update_trading_universe. fold (normalize ticker).
  destruct data_json as [d|]; [|done].
  destruct (upsert_data int_of_str clock (normalize ticker) d) as [p|] eqn:Hp; [|done].
  destruct (reachable db); [|done]. intros [= <-] Hne. cbn [trading_universe].
  apply (table_find_upsert_other p (normalize ticker)); [|done].
  destruct d as [| | | | |kv|]; try (by cbn in Hp).
  by apply (upsert_data_ticker int_of_str clock _ kv).
Qed.

Lemma update_leaves_other_tickers_witness :
  let db := {| reachable := true; trading_universe := example_universe |} in
  let db' := {| reachable := true;
                trading_universe :=
                  table_upsert
                    (<["last_scanned" := JStr "t0"]> {["ticker" := JStr "CCC"]})
                    example_universe |} in
  table_find "AAA" (trading_universe db') = table_find "AAA" (trading_universe db).
Proof.
  intros db db'.
  apply (update_leaves_other_tickers example_int example_clock db db' "ccc" "AAA"
           (Some (JObj []))).
  - reflexivity.
  - discriminate.
Defined.




(** ** The market clock *)

(** X17. The market status is OPEN exactly from Monday to Friday between
    9:30 and 16:00, the end excluded: with the minute of the hour in
    0..59, when the weekday is below 5 and the minute of the day is at
    least 570 and below 960. *)
Theorem market_open_iff_weekday_session (weekday hour minute : Z) :
  0 <= minute < 60 ->
  Market.status weekday hour minute = "OPEN"
  <-> weekday < 5 /\ 570 <= 60 * hour + minute < 960.
Proof.
  intros Hm. unfold Market.status, Market.is_weekday, Market.is_market_hours.
  destruct (weekday <? 5) eqn:Hw; destruct (9 <? hour) eqn:H9;
    destruct (hour =? 9) eqn:He; destruct (30 <=? minute) eqn:H30;
    destruct (hour <? 16) eqn:H16; cbn [andb orb];
    rewrite ?Z.ltb_lt, ?Z.ltb_ge, ?Z.leb_le, ?Z.leb_gt, ?Z.eqb_eq, ?Z.eqb_neq in *;
    (split; [intros H; first [discriminate H | lia] | intros H; first [reflexivity | lia]]).
Qed.

Lemma market_open_iff_weekday_session_witness :
  Market.status 4 9 30 = "OPEN" <-> 4 < 5 /\ 570 <= 60 * 9 + 30 < 960.
Proof. apply (market_open_iff_weekday_session 4 9 30). lia. Defined.

(** ** The positions summary *)

Lemma filter_negb_length {A} (f : A -> bool) (l : list A) :
  (length (List.filter f l) + length (List.filter (fun x => negb (f x)) l)
   = length l)%nat.
Proof.
  induction l as [|x l IH]; [done|]. cbn [List.filter].
  destruct (f x); cbn [negb length]; lia.
Qed.

Lemma filter_idem {A} (f : A -> bool) (l : list A) :
  List.filter f (List.filter f l) = List.filter f l.
Proof.
  induction l as [|x l IH]; [done|]. cbn [List.filter].
  destruct (f x) eqn:Hx; [|done]. cbn [List.filter]. by rewrite Hx, IH.
Qed.

Lemma filter_negb_none {A} (f : A -> bool) (l : list A) :
  List.filter f (List.filter (fun x => negb (f x)) l) = [].
Proof.
  induction l as [|x l IH]; [done|]. cbn [List.filter].
  destruct (f x) eqn:Hx; cbn [negb]; [done|]. cbn [List.filter]. by rewrite Hx.
Qed.

(** X18. The positions summary counts every position once, as open or
    as closed, and the profit it totals is that of the closed positions
    alone: without the open positions the closed count and the total are
    the same. *)
Theorem positions_summary_counts (float_add : pyfloat -> pyfloat -> pyfloat)
    (float_of_int : Z -> option pyfloat) (positions : list Positions.position)
    (s : Positions.summary) :
  Positions._positions_summary float_add float_of_int positions = Some s ->
  (Positions.open_count s + Positions.closed_count s = length positions)%nat
  /\ Positions._positions_summary float_add float_of_int
       (List.filter (fun p => negb (Positions.is_open p)) positions)
     = Some {| Positions.open_count := 0;
               Positions.closed_count := Positions.closed_count s;
               Positions.total_pnl := Positions.total_pnl s |}.
Proof.
  unfold Positions._positions_summary. cbn zeta.
  rewrite filter_negb_none, (filter_idem (fun p => negb (Positions.is_open p))).
  destruct (foldl (Positions.add float_add float_of_int) _ _) as [total|];
    cbn [mbind option_bind]; [|done].
  intros [= <-]. cbn [Positions.open_count Positions.closed_count Positions.total_pnl length].
  split; [apply filter_negb_length|done].
Qed.

Lemma positions_summary_counts_witness :
  let positions :=
    [ [("status", JStr "open"); ("pnl", JStr "n/a")];
      [("status", JStr "closed"); ("pnl", JNum 120)];
      [("status", JStr "stopped"); ("pnl", JNull)];
      [("pnl", JNum (-20))] ] in
  let s := {| Positions.open_count := 1; Positions.closed_count := 3;
              Positions.total_pnl := Positions.Int 100 |} in
  (Positions.open_count s + Positions.closed_count s = length positions)%nat
  /\ Positions._positions_summary (fun x _ => x) (fun _ => None)
       (List.filter (fun p => negb (Positions.is_open p)) positions)
     = Some {| Positions.open_count := 0;
               Positions.closed_count := Positions.closed_count s;
               Positions.total_pnl := Positions.total_pnl s |}.
Proof.
  intros positions s.
  apply (positions_summary_counts (fun x _ => x) (fun _ => None) positions s).
  reflexivity.
Defined.

(** ** The loader *)

Section LoaderFacts.

Context {stock : Type}.
Variable ticker : stock -> string.

Lemma dict_set_keys (k : string) (v : stock) (seen : list (string * stock)) (x : string) :
  In x (fst <$> Russell.dict_set k v seen) <-> x = k \/ In x (fst <$> seen).
Proof.
  induction seen as [|[k' v'] rest IH]; cbn [Russell.dict_set fmap list_fmap fst In].
  - intuition congruence.
  - destruct (String.eqb_spec k' k) as [->|Hne];
      cbn [fmap list_fmap fst In]; [|rewrite IH]; intuition congruence.
Qed.

Lemma dict_set_nodup (k : string) (v : stock) (seen : list (string * stock)) :
  List.NoDup (fst <$> seen) -> List.NoDup (fst <$> Russell.dict_set k v seen).
Proof.
  induction seen as [|[k' v'] rest IH]; cbn [Russell.dict_set fmap list_fmap fst].
  - intros _. constructor; [intros []|constructor].
  - intros H. inversion H as [|? ? Hnot Hrest]; subst.
    destruct (String.eqb_spec k' k) as [->|Hne]; cbn [fmap list_fmap fst].
    + by constructor.
    + constructor; [|by apply IH]. rewrite dict_set_keys. intuition congruence.
Qed.

Lemma dict_set_get (k k0 : string) (v : stock) (seen : list (string * stock)) :
  seen_get k0 (Russell.dict_set k v seen)
  = if (k =? k0)%string then Some v else seen_get k0 seen.
Proof.
  unfold seen_get.
  induction seen as [|[k' v'] rest IH]; cbn [Russell.dict_set List.find fst].
  - by destruct (k =? k0)%string.
  - destruct (String.eqb_spec k' k) as [->|Hne]; cbn [List.find fst].
    + by destruct (k =? k0)%string.
    + destruct (String.eqb_spec k' k0) as [->|Hne0].
      * by rewrite (proj2 (String.eqb_neq k k0)) by congruence.
      * exact IH.
Qed.

Lemma dict_set_in (k k0 : string) (v v0 : stock) (seen : list (string * stock)) :
  In (k0, v0) (Russell.dict_set k v seen) -> (k0, v0) = (k, v) \/ In (k0, v0) seen.
Proof.
  induction seen as [|[k' v'] rest IH]; cbn [Russell.dict_set In].
  - intros [H|[]]. by left.
  - destruct (String.eqb_spec k' k) as [->|Hne]; cbn [In]; intros [H|H]; auto.
    destruct (IH H); auto.
Qed.

Lemma seen_get_in (k : string) (v : stock) (seen : list (string * stock)) :
  List.NoDup (fst <$> seen) ->
  In (k, v) seen <-> seen_get k seen = Some v.
Proof.
  unfold seen_get.
  induction seen as [|[k' v'] rest IH]; cbn [fmap list_fmap fst In List.find]; [done|].
  intros H. inversion H as [|? ? Hnot Hrest]; subst.
  destruct (String.eqb_spec k' k) as [->|Hne]; cbn [fmap option_fmap option_map snd].
  - split; [|intros [= ->]; by left].
    intros [[= ->]|Hin]; [done|]. destruct Hnot.
    apply list_elem_of_In, list_elem_of_fmap. exists (k, v).
    split; [done|]. by apply list_elem_of_In.
  - rewrite <- (IH Hrest). split; [intros [[= -> ->]|Hin]; [done|done]|by right].
Qed.

Lemma last_of_snoc (k : string) (stocks : list stock) (x : stock) :
  Russell.last_of ticker k (stocks ++ [x])
  = if (ticker x =? k)%string then Some x else Russell.last_of ticker k stocks.
Proof. unfold Russell.last_of. by rewrite rev_unit. Qed.

(** The dict of the loader after the loop. *)
Lemma seen_invariant (stocks : list stock) :
  let seen := foldl (fun seen s => Russell.dict_set (ticker s) s seen) [] stocks in
  List.NoDup (fst <$> seen)
  /\ (forall k v, In (k, v) seen -> ticker v = k)
  /\ (forall k, seen_get k seen = Russell.last_of ticker k stocks).
Proof.
  induction stocks as [|x stocks IH] using rev_ind; cbn zeta.
  - split; [constructor|]. split; [intros k v []|done].
  - rewrite foldl_app. cbn [foldl]. cbn zeta in IH.
    destruct IH as (Hnd & Hkeys & Hget). split; [by apply dict_set_nodup|]. split.
    + intros k v Hin. apply dict_set_in in Hin as [[= -> ->]|Hin]; [done|by apply Hkeys].
    + intros k. by rewrite dict_set_get, last_of_snoc, Hget.
Qed.

Lemma concat_batches (n m : nat) (l : list stock) :
  concat ((fun i => take n (drop i l)) <$> ((fun j => (j * n)%nat) <$> seq 0 m))
  = take (m * n) l.
Proof.
  induction m as [|m IH]; [done|].
  rewrite seq_S, !fmap_app, concat_app, IH. cbn [fmap list_fmap concat plus].
  rewrite app_nil_r, take_take_drop. f_equal. lia.
Qed.

End LoaderFacts.

(** X19. Deduplication keeps, for every ticker, the last of the prepared
    stocks with that ticker, and nothing else: the tickers of the result
    are pairwise different, and a stock is in the result exactly when it
    is the last stock of the list with its ticker. *)
Theorem dedup_keeps_last_of_each_ticker {stock : Type} (ticker : stock -> string)
    (stocks : list stock) :
  List.NoDup (ticker <$> Russell.dedup ticker stocks)
  /\ forall s, In s (Russell.dedup ticker stocks)
               <-> Russell.last_of ticker (ticker s) stocks = Some s.
Proof.
  unfold Russell.dedup.
  destruct (seen_invariant ticker stocks) as (Hnd & Hkeys & Hget).
  cbn zeta in Hnd, Hkeys, Hget.
  set (seen := foldl _ [] stocks) in *.
  assert (Hmap : ticker <$> (snd <$> seen) = fst <$> seen).
  { clear -Hkeys. induction seen as [|[k v] rest IH]; [done|].
    cbn [fmap list_fmap fst snd]. rewrite (Hkeys k v) by (by left).
    f_equal. apply IH. intros k' v' Hin. apply Hkeys. by right. }
  split; [by rewrite Hmap|]. intros s. rewrite <- Hget, <- (seen_get_in _ _ _ Hnd).
  split.
  - intros Hin. apply list_elem_of_In, list_elem_of_fmap in Hin as ([k v] & -> & Hin).
    apply list_elem_of_In in Hin. cbn [snd]. by rewrite (Hkeys k v Hin).
  - intros Hin. apply list_elem_of_In, list_elem_of_fmap. exists (ticker s, s).
    split; [done|]. by apply list_elem_of_In.
Qed.

(** X20. The batches the loader upserts are the stocks, in order and
    each once: joined they give the list back, and every batch holds at
    least one stock and at most 1000. *)
Theorem batches_cover_the_stocks {stock : Type} (stocks : list stock) :
  concat (Russell.batches 1000 stocks) = stocks
  /\ Forall (fun batch => (0 < length batch <= 1000)%nat) (Russell.batches 1000 stocks).
Proof.
  unfold Russell.batches, Russell.range.
  set (n := 1000%nat). assert (Hn : (0 < n)%nat) by (unfold n; lia). clearbody n.
  set (m := ((length stocks + n - 1) / n)%nat).
  assert (Hm : (n * m <= length stocks + n - 1 < n * m + n)%nat).
  { pose proof (Nat.div_mod_eq (length stocks + n - 1) n) as Hd.
    pose proof (Nat.mod_upper_bound (length stocks + n - 1) n) as Hu.
    fold m in Hd. lia. }
  split.
  - rewrite concat_batches, take_ge; [done|]. nia.
  - rewrite <- list_fmap_compose. apply List.Forall_forall. intros b Hb.
    apply list_elem_of_In, list_elem_of_fmap in Hb as (j & -> & Hj).
    apply list_elem_of_In, in_seq in Hj. cbn [compose].
    rewrite length_take, length_drop. nia.
Qed.
